(** * The test harness of libforth's [unit.c]

    A shallow embedding of the "very minimal test framework" at the head of
    [unit.c] and of the [main] that drives it.  The program keeps its state
    in file-scope variables, so every function of the source becomes a
    function on a record [process] holding those variables, the disposition
    of SIGABRT and the two output streams.  The interpreter under test is
    not part of the harness: what evaluating an expression of the suite does
    (yield a value, or raise a signal) is an input of the model. *)

From Stdlib Require Import ZArith String List Ascii DecimalString Bool Lia.
Import ListNotations.
Open Scope string_scope.
Open Scope Z_scope.

(** ** Constants of the C implementation

    [<signal.h>] and [<limits.h>] belong to the platform, not to the
    repository: the signal numbers and the range of [unsigned] are taken as
    parameters. *)

Class Platform : Type := {
  SIGABRT : Z;
  SIGFPE : Z;
  SIGILL : Z;
  SIGINT : Z;
  SIGSEGV : Z;
  SIGTERM : Z;
  UINT_MAX : Z
}.

(** The values of Linux on x86 and ARM (also those of the BSDs and macOS). *)
Definition linux : Platform := {|
  SIGABRT := 6;
  SIGFPE := 8;
  SIGILL := 4;
  SIGINT := 2;
  SIGSEGV := 11;
  SIGTERM := 15;
  UINT_MAX := 4294967295
|}.

(** What ISO C promises about them: signal numbers are positive and
    pairwise distinct, [unsigned] has at least 16 bits. *)
Definition signals_positive (P : Platform) : Prop :=
  Forall (fun n => 0 < n) [SIGABRT; SIGFPE; SIGILL; SIGINT; SIGSEGV; SIGTERM].

Definition signals_distinct (P : Platform) : Prop :=
  NoDup [SIGABRT; SIGFPE; SIGILL; SIGINT; SIGSEGV; SIGTERM].

Definition unsigned_wide (P : Platform) : Prop := 65535 <= UINT_MAX.

(** ** Characters that a Rocq string literal cannot hold *)

Definition TAB : string := String (ascii_of_nat 9) "".
Definition NL : string := String (ascii_of_nat 10) "".
Definition ESC : string := String (ascii_of_nat 27) "".
Definition DQ : string := String (ascii_of_nat 34) "".

(** The spelling of a C string literal, as [#EXPR] keeps it. *)
Definition quoted (text : string) : string := DQ ++ text ++ DQ.

(** [printf]'s [%d] and [%u] of a value. *)
Definition decimal (n : Z) : string := NilZero.string_of_int (Z.to_int n).

(** C's reading of an [int] as a condition. *)
Definition truth (c : Z) : bool := negb (c =? 0).

(** ** The process *)

(** The second argument of [signal()] and its return value. *)
Inductive sighandler : Type :=
| SIG_DFL
| SIG_ERR
| fn_sig_abrt_handler.   (* the address of [sig_abrt_handler] *)

(** The file-scope variables of [unit.c] (lines 25-34, 85, 182) under their
    names, the disposition of SIGABRT (the one signal the program ever
    passes to [signal()]) and what has been written to the two streams, one
    entry per [printf] call.  The clock variables [timer], [start_time],
    [end_time] and [rawtime] only feed the banner and the summary line;
    their renderings are inputs of [unit_test_start] and [unit_test_end]. *)
Record process : Type := mkProcess {
  passed : Z;
  failed : Z;
  color_on : Z;
  jmpbuf_active : Z;
  is_silent : Z;
  current_line : Z;
  current_result : Z;
  current_expr : string;
  caught_signal : Z;
  keep_files : Z;
  sigabrt_action : sighandler;
  stdout : list string;
  stderr : list string
}.

(** The process as [main] is entered: statics are zero, dispositions are
    the default ones, nothing has been printed. *)
Definition startup : process :=
  mkProcess 0 0 0 0 0 0 0 "" 0 0 SIG_DFL [] [].

Definition set_passed (v : Z) (s : process) : process :=
  let (p, f, c, j, q, l, r, x, g, k, a, o, e) := s in
  mkProcess v f c j q l r x g k a o e.

Definition set_failed (v : Z) (s : process) : process :=
  let (p, f, c, j, q, l, r, x, g, k, a, o, e) := s in
  mkProcess p v c j q l r x g k a o e.

Definition set_color_on (v : Z) (s : process) : process :=
  let (p, f, c, j, q, l, r, x, g, k, a, o, e) := s in
  mkProcess p f v j q l r x g k a o e.

Definition set_jmpbuf_active (v : Z) (s : process) : process :=
  let (p, f, c, j, q, l, r, x, g, k, a, o, e) := s in
  mkProcess p f c v q l r x g k a o e.

Definition set_is_silent (v : Z) (s : process) : process :=
  let (p, f, c, j, q, l, r, x, g, k, a, o, e) := s in
  mkProcess p f c j v l r x g k a o e.

Definition set_current_line (v : Z) (s : process) : process :=
  let (p, f, c, j, q, l, r, x, g, k, a, o, e) := s in
  mkProcess p f c j q v r x g k a o e.

Definition set_current_result (v : Z) (s : process) : process :=
  let (p, f, c, j, q, l, r, x, g, k, a, o, e) := s in
  mkProcess p f c j q l v x g k a o e.

Definition set_current_expr (v : string) (s : process) : process :=
  let (p, f, c, j, q, l, r, x, g, k, a, o, e) := s in
  mkProcess p f c j q l r v g k a o e.

Definition set_caught_signal (v : Z) (s : process) : process :=
  let (p, f, c, j, q, l, r, x, g, k, a, o, e) := s in
  mkProcess p f c j q l r x v k a o e.

Definition set_keep_files (v : Z) (s : process) : process :=
  let (p, f, c, j, q, l, r, x, g, k, a, o, e) := s in
  mkProcess p f c j q l r x g v a o e.

Definition set_sigabrt_action (v : sighandler) (s : process) : process :=
  let (p, f, c, j, q, l, r, x, g, k, a, o, e) := s in
  mkProcess p f c j q l r x g k v o e.

Definition set_stdout (v : list string) (s : process) : process :=
  let (p, f, c, j, q, l, r, x, g, k, a, o, e) := s in
  mkProcess p f c j q l r x g k a v e.

Definition set_stderr (v : list string) (s : process) : process :=
  let (p, f, c, j, q, l, r, x, g, k, a, o, e) := s in
  mkProcess p f c j q l r x g k a o v.

(** One [printf] call: its formatted text goes to the end of [stdout]. *)
Definition printf (text : string) (s : process) : process :=
  set_stdout (stdout s ++ [text])%list s.

(** One [fprintf(stderr, ...)] call. *)
Definition fprintf_stderr (text : string) (s : process) : process :=
  set_stderr (stderr s ++ [text])%list s.

(** How a run of the program, or of a part of it, ends short of falling
    through to the next statement. *)
Inductive ending : Type :=
| Returned (code : Z)    (* [return code] from [main] *)
| Exited (code : Z)      (* [exit(code)] *)
| Killed (sig : Z)       (* terminated by a signal *)
| Undefined.             (* behaviour the C standard leaves undefined *)

Inductive result : Type :=
| Continue (s : process)
| Stop (e : ending) (s : process).

Definition and_then (r : result) (k : process -> result) : result :=
  match r with
  | Continue s => k s
  | Stop e s => Stop e s
  end.

Notation "s <- r ;; k" := (and_then r (fun s => k))
  (at level 61, r at next level, right associativity).

(** What evaluating an expression or a statement of the suite does: it
    yields a value, or the code under test raises a signal from within it
    (a failed [assert] calling [abort()]). *)
Inductive evaluation : Type :=
| Value (v : Z)
| Raises (sig : Z).

Section Harness.

Context {P : Platform}.

(** [unsigned] increment, [n++]. *)
Definition uint_incr (n : Z) : Z := (n + 1) mod (UINT_MAX + 1).

(** [unsigned] addition. *)
Definition uint_add (a b : Z) : Z := (a + b) mod (UINT_MAX + 1).

(** ** Colours (lines 36-40) *)

Definition reset (s : process) : string :=
  if truth (color_on s) then ESC ++ "[0m" else "".
Definition red (s : process) : string :=
  if truth (color_on s) then ESC ++ "[31m" else "".
Definition green (s : process) : string :=
  if truth (color_on s) then ESC ++ "[32m" else "".
Definition yellow (s : process) : string :=
  if truth (color_on s) then ESC ++ "[33m" else "".
Definition blue (s : process) : string :=
  if truth (color_on s) then ESC ++ "[34m" else "".

(** ** Tally and reporter (lines 42-72) *)

Definition unit_tester (test : Z) (msg : string) (line : Z) (s : process)
  : Z * process :=
  if truth test then
    let s := set_passed (uint_incr (passed s)) s in
    let s :=
      if negb (truth (is_silent s)) then
        printf ("      " ++ green s ++ "ok" ++ reset s ++ ":" ++ TAB
                ++ msg ++ NL) s
      else s in
    (test, s)
  else
    let s := set_failed (uint_incr (failed s)) s in
    let s :=
      if negb (truth (is_silent s)) then
        printf ("  " ++ red s ++ "FAILED" ++ reset s ++ ":" ++ TAB
                ++ msg ++ " (line " ++ decimal line ++ ")" ++ NL) s
      else s in
    (test, s).

Definition print_statement (stmt : string) (s : process) : process :=
  if negb (truth (is_silent s)) then
    printf ("   " ++ blue s ++ "state" ++ reset s ++ ":" ++ TAB ++ stmt ++ NL) s
  else s.

Definition print_must (must : string) (s : process) : process :=
  if negb (truth (is_silent s)) then
    printf ("    " ++ blue s ++ "must" ++ reset s ++ ":" ++ TAB ++ must ++ NL) s
  else s.

Definition print_note (name : string) (s : process) : process :=
  if negb (truth (is_silent s)) then
    printf (yellow s ++ name ++ reset s ++ NL) s
  else s.

(** ** Signal names (lines 74-93) *)

Definition MAX_SIGNALS : Z := 256.

(** One designated initialiser [[i] = v] of an array of pointers: the
    array grows, with null pointers, up to index [i], and entry [i] is
    (over)written.  [None] is the null pointer. *)
Definition designate (i : Z) (v : option string) (a : list (option string))
  : list (option string) :=
  let n := Z.to_nat i in
  (firstn n (a ++ repeat None (n - length a)) ++ v :: skipn (S n) a)%list.

(** The initialisers of [sig_lookup], in the order of the source. *)
Definition sig_lookup : list (option string) :=
  designate MAX_SIGNALS None
    (designate SIGTERM (Some "SIGTERM")
      (designate SIGSEGV (Some "SIGSEGV")
        (designate SIGINT (Some "SIGINT")
          (designate SIGILL (Some "SIGILL")
            (designate SIGFPE (Some "SIGFPE")
              (designate SIGABRT (Some "SIGABRT") [])))))).

(** [a[i]]: [None] when index [i] lies outside the array. *)
Definition array_read {A : Type} (a : list A) (i : Z) : option A :=
  if i <? 0 then None else nth_error a (Z.to_nat i).

(** The pointer held by the local [sig_name] when [printf] is reached
    (lines 88-90).  The outer [None] is a read outside [sig_lookup]; the
    inner option is the pointer, [None] being null.  [&&] evaluates its
    right operand, the array read, only after the two range tests. *)
Definition sig_name (caught_signal : Z) : option (option string) :=
  let sig_name := Some "UNKNOWN SIGNAL" in
  if (caught_signal >? 0) && (caught_signal <? MAX_SIGNALS) then
    match array_read sig_lookup caught_signal with
    | None => None
    | Some None => Some sig_name
    | Some (Some name) => Some (Some name)
    end
  else Some sig_name.

(** [printf]'s [%s] reads through the pointer: a null one is undefined. *)
Definition print_caught_signal_name (s : process) : result :=
  match sig_name (caught_signal s) with
  | None => Stop Undefined s
  | Some name =>
      if negb (truth (is_silent s)) then
        match name with
        | None => Stop Undefined s
        | Some text =>
            Continue
              (printf ("caught " ++ text ++ " (signal number "
                       ++ decimal (caught_signal s) ++ ")" ++ NL) s)
        end
      else Continue s
  end.

(** ** The signal trap (lines 95-102) *)

(** How the handler is left: by [return], or through [longjmp]. *)
Inductive handler_exit : Type :=
| handler_returns
| handler_longjmp.

Definition sig_abrt_handler (sig : Z) (s : process) : handler_exit * process :=
  let s := set_caught_signal sig s in
  if truth (jmpbuf_active s) then
    let s := set_jmpbuf_active 0 s in
    (handler_longjmp, s)
  else (handler_returns, s).

(** [signal(sig, func)] for the signal whose disposition the model keeps;
    the previous disposition is returned.  Any other number is refused. *)
Definition signal (sig : Z) (func : sighandler) (s : process)
  : sighandler * process :=
  if sig =? SIGABRT then (sigabrt_action s, set_sigabrt_action func s)
  else (SIG_ERR, s).

(** A signal raised by the code under test while the harness waits for it.
    With [sig_abrt_handler] installed for it the handler runs; if that
    returns, [abort()] ends the process all the same.  Every other signal,
    and SIGABRT under the default disposition, ends the process.  Globals
    keep across [longjmp] the values they had when it was called. *)
Inductive delivery : Type :=
| Jumped (s : process)
| Terminated (sig : Z) (s : process).

Definition deliver (sig : Z) (s : process) : delivery :=
  if sig =? SIGABRT then
    match sigabrt_action s with
    | fn_sig_abrt_handler =>
        match sig_abrt_handler sig s with
        | (handler_longjmp, s') => Jumped s'
        | (handler_returns, s') => Terminated sig s'
        end
    | SIG_DFL | SIG_ERR => Terminated sig s
    end
  else Terminated sig s.

(** ** The assertion macros (lines 108-136) *)

(** [test], lines 110-114: up to the point where [EXPR] is evaluated.
    [setjmp] has returned 0. *)
Definition test_enter (expr : string) (line : Z) (s : process) : process :=
  let s := set_current_line line s in
  let s := set_current_expr expr s in
  let s := snd (signal SIGABRT fn_sig_abrt_handler s) in
  set_jmpbuf_active 1 s.

(** [test], lines 117-119: the branch taken when [setjmp] returns from the
    handler's [longjmp]. *)
Definition test_caught (s : process) : result :=
  s <- print_caught_signal_name s ;;
  let (r, s) := unit_tester 0 (current_expr s) (current_line s) s in
  let s := set_current_line r s in
  Continue (snd (signal SIGABRT fn_sig_abrt_handler s)).

(** [test], lines 121-122. *)
Definition test_leave (s : process) : process :=
  let s := snd (signal SIGABRT SIG_DFL s) in
  set_jmpbuf_active 0 s.

Definition test (expr : string) (line : Z) (e : evaluation) (s : process)
  : result :=
  let s := test_enter expr line s in
  match e with
  | Value v =>
      let (r, s) :=
        unit_tester (if v =? 0 then 0 else 1) (current_expr s) (current_line s) s in
      let s := set_current_result r s in
      Continue (test_leave s)
  | Raises sig =>
      match deliver sig s with
      | Jumped s => s <- test_caught s ;; Continue (test_leave s)
      | Terminated sig s => Stop (Killed sig) s
      end
  end.

Definition must (expr : string) (line : Z) (e : evaluation) (s : process)
  : result :=
  let s := print_must expr s in
  s <- test expr line e s ;;
  if negb (truth (current_result s)) then Stop (Exited (-1)) s
  else Continue s.

(** [state(STMT)]: the statement runs outside any [setjmp] of its own.  A
    [longjmp] out of it would go through whatever [current_test] holds;
    the model does not follow it.  No run gets there, the trap being
    disarmed whenever a statement runs (lemma [run_defined]). *)
Definition state (stmt : string) (e : evaluation) (s : process) : result :=
  let s := print_statement stmt s in
  match e with
  | Value _ => Continue s
  | Raises sig =>
      match deliver sig s with
      | Jumped s => Stop Undefined s
      | Terminated sig s => Stop (Killed sig) s
      end
  end.

(** ** Start and end of a suite (lines 142-162) *)

(** [now] is the text of [asctime(localtime(&rawtime))]. *)
Definition unit_test_start (unit_name : string) (now : string) (s : process)
  : Z * process :=
  let (previous, s) := signal SIGABRT fn_sig_abrt_handler s in
  match previous with
  | SIG_ERR =>
      let s := fprintf_stderr "signal handler installation failed" s in
      (-1, s)
  | SIG_DFL | fn_sig_abrt_handler =>
      let s :=
        if negb (truth (is_silent s)) then
          printf (unit_name ++ " unit tests" ++ NL ++ now ++ "begin:" ++ NL ++ NL) s
        else s in
      (0, s)
  end.

(** [elapsed] is [printf]'s [%f] of [timer], the clock ticks between start
    and end over [CLOCKS_PER_SEC]. *)
Definition unit_test_end (unit_name : string) (elapsed : string) (s : process)
  : Z * process :=
  let s :=
    if negb (truth (is_silent s)) then
      printf (NL ++ NL ++ unit_name ++ " unit tests" ++ NL
              ++ "passed  " ++ decimal (passed s) ++ "/"
              ++ decimal (uint_add (passed s) (failed s)) ++ NL
              ++ "time    " ++ elapsed ++ "s" ++ NL) s
    else s in
  (failed s, s).

(** ** The suite as a sequence of harness calls *)

Inductive call : Type :=
| c_note (name : string)
| c_state (stmt : string) (e : evaluation)
| c_state_unless (c : Z) (stmt : string) (e : evaluation)
| c_test (expr : string) (line : Z) (e : evaluation)
| c_must (expr : string) (line : Z) (e : evaluation).

(** [print_note(name)], [state(STMT)], [if(!c) state(STMT)], [test(EXPR)]
    and [must(EXPR)]. *)
Definition step (c : call) (s : process) : result :=
  match c with
  | c_note name => Continue (print_note name s)
  | c_state stmt e => state stmt e s
  | c_state_unless c stmt e =>
      if negb (truth c) then state stmt e s else Continue s
  | c_test expr line e => test expr line e s
  | c_must expr line e => must expr line e s
  end.

Fixpoint run (calls : list call) (s : process) : result :=
  match calls with
  | [] => Continue s
  | c :: calls => s <- step c s ;; run calls s
  end.

(** The four blocks of [main], lines 223-376.  The text of a call is the
    preprocessor's [#EXPR], its line the [__LINE__] of the call;
    [behaviour n] is what the expression or statement on line [n] does in
    the run at hand. *)
Definition libforth_tests (behaviour : Z -> evaluation) (keep_files : Z)
  : list call :=
  [
    c_note "libforth.c";
    c_state "f = forth_init(MINIMUM_CORE_SIZE, stdin, stdout)" (behaviour 224);
    c_must "f" 225 (behaviour 225);
    c_state ("core = fopen(" ++ quoted "unit.core" ++ ", " ++ quoted "wb" ++ ")")
      (behaviour 226);
    c_must "core" 227 (behaviour 227);
    c_test "0 == forth_stack_position(f)" 230 (behaviour 230);
    c_test ("forth_eval(f, " ++ quoted "here " ++ ") >= 0") 231 (behaviour 231);
    c_state "here = forth_pop(f)" (behaviour 232);
    c_state "forth_push(f, here)" (behaviour 233);
    c_test ("forth_eval(f, " ++ quoted "2 2 + " ++ ") >= 0") 234 (behaviour 234);
    c_test "forth_pop(f) == 4" 235 (behaviour 235);
    c_test ("!forth_find(f, " ++ quoted "unit-01" ++ ")") 237 (behaviour 237);
    c_test ("forth_eval(f, " ++ quoted ": unit-01 69 ; unit-01 " ++ ") >= 0")
      238 (behaviour 238);
    c_test ("forth_find(f, " ++ quoted "unit-01" ++ ")") 239 (behaviour 239);
    c_test ("!forth_find(f, " ++ quoted "unit-01 " ++ ")") 240 (behaviour 240);
    c_test "forth_pop(f) == 69" 241 (behaviour 241);
    c_test "1 == forth_stack_position(f)" 242 (behaviour 242);
    c_test ("forth_define_constant(f, " ++ quoted "constant-1" ++ ", 0xAA0A) >= 0")
      245 (behaviour 245);
    c_test ("forth_define_constant(f, " ++ quoted "constant-2" ++ ", 0x5055) >= 0")
      246 (behaviour 246);
    c_test ("forth_eval(f, " ++ quoted "constant-1 constant-2 or" ++ ") >= 0")
      247 (behaviour 247);
    c_test "forth_pop(f) == 0xFA5F" 248 (behaviour 248);
    c_state ("forth_set_string_input(f, " ++ quoted " 18 2 /" ++ ")") (behaviour 251);
    c_test "forth_run(f) >= 0" 252 (behaviour 252);
    c_test "forth_pop(f) == 9" 253 (behaviour 253);
    c_state "forth_set_file_input(f, stdin)" (behaviour 254);
    c_test "forth_save_core(f, core) >= 0" 257 (behaviour 257);
    c_state "fclose(core)" (behaviour 258);
    c_state "forth_push(f, 99)" (behaviour 261);
    c_state "forth_push(f, 98)" (behaviour 262);
    c_test ("forth_eval(f, " ++ quoted "+" ++ ") >= 0") 263 (behaviour 263);
    c_test "forth_pop(f) == 197" 264 (behaviour 264);
    c_test "1 == forth_stack_position(f)" 265 (behaviour 265);
    c_test "here == forth_pop(f)" 266 (behaviour 266);
    c_state "forth_free(f)" (behaviour 267);
    c_state ("core = fopen(" ++ quoted "unit.core" ++ ", " ++ quoted "rb" ++ ")")
      (behaviour 274);
    c_must "core" 275 (behaviour 275);
    c_state "f = forth_load_core(core)" (behaviour 278);
    c_test "0 == forth_stack_position(f)" 281 (behaviour 281);
    c_must "f" 282 (behaviour 282);
    c_test ("forth_find(f, " ++ quoted "unit-01" ++ ")") 284 (behaviour 284);
    c_test ("forth_eval(f, " ++ quoted "unit-01 constant-1 *" ++ ") >= 0")
      285 (behaviour 285);
    c_test "forth_pop(f) == 69 * 0xAA0A" 286 (behaviour 286);
    c_test "0 == forth_stack_position(f)" 287 (behaviour 287);
    c_state "forth_free(f)" (behaviour 289);
    c_state "fclose(core)" (behaviour 290);
    c_state_unless keep_files ("remove(" ++ quoted "unit.core" ++ ")") (behaviour 292);
    c_state "f = forth_init(MINIMUM_CORE_SIZE, stdin, stdout)" (behaviour 303);
    c_must "f" 304 (behaviour 304);
    c_test ("forth_eval(f, " ++ quoted ": if-test if 0x55 else 0xAA then ;" ++ ") >= 0")
      308 (behaviour 308);
    c_test ("forth_eval(f, " ++ quoted "0 if-test" ++ ") >= 0") 309 (behaviour 309);
    c_test "forth_pop(f) == 0xAA" 310 (behaviour 310);
    c_state "forth_push(f, 1)" (behaviour 311);
    c_test ("forth_eval(f, " ++ quoted "if-test" ++ ") >= 0") 312 (behaviour 312);
    c_test "forth_pop(f) == 0x55" 313 (behaviour 313);
    c_test ("forth_eval(f, " ++ quoted " : loop-test begin 1 + dup 10 u> until ;" ++ ") >= 0")
      316 (behaviour 316);
    c_test ("forth_eval(f, " ++ quoted " 1 loop-test" ++ ") >= 0") 317 (behaviour 317);
    c_test "forth_pop(f) == 11" 318 (behaviour 318);
    c_test ("forth_eval(f, " ++ quoted " 39 loop-test" ++ ") >= 0") 319 (behaviour 319);
    c_test "forth_pop(f) == 40" 320 (behaviour 320);
    c_test ("forth_eval(f, " ++ quoted " 1 2 3 rot ( 1 2 3 -- 2 3 1 )" ++ ") >= 0")
      323 (behaviour 323);
    c_test "forth_pop(f) == 1" 324 (behaviour 324);
    c_test "forth_pop(f) == 3" 325 (behaviour 325);
    c_test "forth_pop(f) == 2" 326 (behaviour 326);
    c_test ("forth_eval(f, " ++ quoted " 1 2 3 -rot " ++ ") >= 0") 329 (behaviour 329);
    c_test "forth_pop(f) == 2" 330 (behaviour 330);
    c_test "forth_pop(f) == 1" 331 (behaviour 331);
    c_test "forth_pop(f) == 3" 332 (behaviour 332);
    c_test ("forth_eval(f, " ++ quoted " 3 4 5 nip " ++ ") >= 0") 335 (behaviour 335);
    c_test "forth_pop(f) == 5" 336 (behaviour 336);
    c_test "forth_pop(f) == 3" 337 (behaviour 337);
    c_test ("forth_eval(f, " ++ quoted " here 32 allot here swap - " ++ ") >= 0")
      340 (behaviour 340);
    c_test "forth_pop(f) == 32" 341 (behaviour 341);
    c_test ("forth_eval(f, " ++ quoted " 67 23 tuck " ++ ") >= 0") 344 (behaviour 344);
    c_test "forth_pop(f) == 23" 345 (behaviour 345);
    c_test "forth_pop(f) == 67" 346 (behaviour 346);
    c_test "forth_pop(f) == 23" 347 (behaviour 347);
    c_state "forth_free(f)" (behaviour 350);
    c_state "f = forth_init(MINIMUM_CORE_SIZE, stdin, stdout)" (behaviour 355);
    c_must "f" 356 (behaviour 356);
    c_test ("forth_eval(f, " ++ quoted " base @ 0 = " ++ ") >= 0") 365 (behaviour 365);
    c_test "forth_pop(f)" 366 (behaviour 366);
    c_test ("forth_eval(f, " ++ quoted " `invalid @ 0 = " ++ ") >= 0")
      369 (behaviour 369);
    c_test "forth_pop(f)" 370 (behaviour 370);
    c_test ("forth_eval(f, " ++ quoted " `source-id @ -1 = " ++ ") >= 0")
      373 (behaviour 373);
    c_test "forth_pop(f)" 374 (behaviour 374);
    c_state "forth_free(f)" (behaviour 376)
  ].

(** ** [main] (lines 166-206 and 208-378) *)

Definition usage (argv0 : string) : string :=
  "libforth unit test framework" ++ NL
  ++ NL
  ++ TAB ++ "usage: " ++ argv0 ++ " [-h] [-c] [-k] [-s] [-]" ++ NL
  ++ NL
  ++ TAB ++ "-h" ++ TAB
  ++ "print this help message and exit (unsuccessfully so tests do not pass)" ++ NL
  ++ TAB ++ "-c" ++ TAB ++ "turn colorized output on (forced on)" ++ NL
  ++ TAB ++ "-k" ++ TAB ++ "keep any temporary file" ++ NL
  ++ TAB ++ "-s" ++ TAB ++ "silent mode" ++ NL
  ++ TAB ++ "-       stop processing command line arguments" ++ NL
  ++ NL
  ++ "This program executes are series of tests to exercise the libforth library. It"
  ++ NL
  ++ "will return zero on success and non zero on failure. The tests and results will"
  ++ NL
  ++ "be printed out as executed." ++ NL
  ++ NL.

(** The loop over [argv[1]], [argv[2]], ... (lines 186-206): it ends at the
    first argument that does not start with a dash, at a lone dash and at
    the end of the arguments; only the character after the dash is read. *)
Fixpoint arguments (argv0 : string) (args : list string) (s : process)
  : result :=
  match args with
  | [] => Continue s
  | arg :: args =>
      match arg with
      | String "-"%char EmptyString => Continue s
      | String "-"%char (String "s"%char _) =>
          arguments argv0 args (set_is_silent 1 s)
      | String "-"%char (String "h"%char _) =>
          Stop (Returned (-1)) (fprintf_stderr (usage argv0) s)
      | String "-"%char (String "c"%char _) =>
          arguments argv0 args (set_color_on 1 s)
      | String "-"%char (String "k"%char _) =>
          arguments argv0 args (set_keep_files 1 s)
      | String "-"%char (String _ _) =>
          let s := fprintf_stderr ("invalid argument '" ++ arg ++ "'" ++ NL) s in
          Stop (Returned (-1)) (fprintf_stderr (usage argv0) s)
      | _ => Continue s
      end
  end.

(** [main] from the label [done] on, for any sequence of harness calls in
    the place of the libforth one.  The value of [unit_test_start] is
    dropped, as in the source; [!!] maps zero to 0 and the rest to 1. *)
Definition run_suite (unit_name : string) (calls : list call)
  (now elapsed : string) (s : process) : result :=
  let (_, s) := unit_test_start unit_name now s in
  s <- run calls s ;;
  let (end_value, s) := unit_test_end unit_name elapsed s in
  Stop (Returned (if end_value =? 0 then 0 else 1)) s.

Definition main (argv : list string) (now elapsed : string)
  (behaviour : Z -> evaluation) : result :=
  s <- arguments (hd "" argv) (tl argv) startup ;;
  run_suite "libforth" (libforth_tests behaviour (keep_files s)) now elapsed s.

End Harness.

Arguments uint_incr : simpl never.
Arguments uint_add : simpl never.
Arguments decimal : simpl never.

(** ** Definitions on the side of the specification *)

(** The name the specification gives a signal number: the one of the
    lookup set, or the text for an unknown signal. *)
Definition spec_signal_name {P : Platform} (n : Z) : string :=
  if n =? SIGABRT then "SIGABRT"
  else if n =? SIGFPE then "SIGFPE"
  else if n =? SIGILL then "SIGILL"
  else if n =? SIGINT then "SIGINT"
  else if n =? SIGSEGV then "SIGSEGV"
  else if n =? SIGTERM then "SIGTERM"
  else "UNKNOWN SIGNAL".

(** Every signal of the lookup set has a slot below [MAX_SIGNALS]. *)
Definition signals_below_MAX (P : Platform) : Prop :=
  Forall (fun n => n < MAX_SIGNALS)
    [SIGABRT; SIGFPE; SIGILL; SIGINT; SIGSEGV; SIGTERM].

(** The process a result ends in. *)
Definition final (r : result) : process :=
  match r with
  | Continue s => s
  | Stop _ s => s
  end.

(** How the process ended, if it has. *)
Definition exit_status (r : result) : option ending :=
  match r with
  | Continue _ => None
  | Stop e _ => Some e
  end.

(** Exactly one of the two counters has moved, by one step of [++]. *)
Definition counted_once {P : Platform} (s s' : process) : Prop :=
  (passed s' = uint_incr (passed s) /\ failed s' = failed s) \/
  (passed s' = passed s /\ failed s' = uint_incr (failed s)).

(** The outcome of an assertion in the specification's sense: failure
    when the evaluation is interrupted by a signal, the truth of the value
    otherwise. *)
Definition spec_outcome (e : evaluation) : bool :=
  match e with
  | Value v => negb (v =? 0)
  | Raises _ => false
  end.

Definition is_assertion (c : call) : bool :=
  match c with
  | c_test _ _ _ | c_must _ _ _ => true
  | c_note _ | c_state _ _ | c_state_unless _ _ _ => false
  end.

Definition passes_assertion (c : call) : bool :=
  match c with
  | c_test _ _ e | c_must _ _ e => spec_outcome e
  | c_note _ | c_state _ _ | c_state_unless _ _ _ => false
  end.

Definition fails_assertion (c : call) : bool :=
  match c with
  | c_test _ _ e | c_must _ _ e => negb (spec_outcome e)
  | c_note _ | c_state _ _ | c_state_unless _ _ _ => false
  end.

(** The numbers of assertions, of passing and of failing ones in a
    sequence of calls. *)
Definition assertions (calls : list call) : Z :=
  Z.of_nat (length (filter is_assertion calls)).

Definition passes (calls : list call) : Z :=
  Z.of_nat (length (filter passes_assertion calls)).

Definition failures (calls : list call) : Z :=
  Z.of_nat (length (filter fails_assertion calls)).

(** A process with what silent mode governs blanked out: the flag itself
    and the text on standard output. *)
Definition hushed (s : process) : process :=
  set_stdout [] (set_is_silent 0 s).

(** Two processes, and two results, that differ at most in those. *)
Definition same_but_output (s1 s2 : process) : Prop :=
  hushed s1 = hushed s2.

Definition same_outcome (r1 r2 : result) : Prop :=
  match r1, r2 with
  | Continue s1, Continue s2 => same_but_output s1 s2
  | Stop e1 s1, Stop e2 s2 => e1 = e2 /\ same_but_output s1 s2
  | _, _ => False
  end.

(** ** Definitions for the further properties *)

(** An argument at which the option loop of [main] ends without reading
    further: a lone dash, or one that does not start with a dash. *)
Definition ends_options (arg : string) : bool :=
  match arg with
  | String "-"%char (String _ _) => false
  | _ => true
  end.

(** What the option loop may not touch: everything but the three option
    flags and [stderr]. *)
Definition beyond_options (s s' : process) : Prop :=
  passed s' = passed s /\ failed s' = failed s /\
  jmpbuf_active s' = jmpbuf_active s /\
  current_line s' = current_line s /\ current_result s' = current_result s /\
  current_expr s' = current_expr s /\ caught_signal s' = caught_signal s /\
  sigabrt_action s' = sigabrt_action s /\ stdout s' = stdout s.

(** A process with what colour mode governs blanked out: the flag, and
    the text of every entry of standard output (their number is kept). *)
Definition uncoloured (s : process) : process :=
  set_stdout (map (fun _ => "") (stdout s)) (set_color_on 0 s).

Definition same_but_colour (s1 s2 : process) : Prop :=
  uncoloured s1 = uncoloured s2.

Definition same_colourless_outcome (r1 r2 : result) : Prop :=
  match r1, r2 with
  | Continue s1, Continue s2 => same_but_colour s1 s2
  | Stop e1 s1, Stop e2 s2 => e1 = e2 /\ same_but_colour s1 s2
  | _, _ => False
  end.

(** The signal a call raises, if it does. *)
Definition raises (sig : Z) (c : call) : Prop :=
  match c with
  | c_note _ => False
  | c_state _ e | c_state_unless _ _ e | c_test _ _ e | c_must _ _ e =>
      e = Raises sig
  end.

(** A call that cannot end the run: its expression or statement yields a
    value, non-zero where the call is a [must]. *)
Definition benign (c : call) : Prop :=
  match c with
  | c_note _ => True
  | c_state _ e | c_state_unless _ _ e | c_test _ _ e => exists v, e = Value v
  | c_must _ _ e => spec_outcome e = true
  end.

(** The number of [printf] calls a call makes when it lets the run go on
    and silent mode is off. *)
Definition printed (c : call) : nat :=
  match c with
  | c_note _ => 1
  | c_state _ _ => 1
  | c_state_unless k _ _ => if truth k then 0 else 1
  | c_test _ _ (Value _) => 1
  | c_test _ _ (Raises _) => 2
  | c_must _ _ (Value _) => 2
  | c_must _ _ (Raises _) => 3
  end.

(** The lines of the reporter (lines 47, 51, 65, 92 and 160) as texts. *)
Definition ok_line (s : process) (msg : string) : string :=
  "      " ++ green s ++ "ok" ++ reset s ++ ":" ++ TAB ++ msg ++ NL.

Definition failed_line (s : process) (msg : string) (line : Z)
  : string :=
  "  " ++ red s ++ "FAILED" ++ reset s ++ ":" ++ TAB ++ msg
  ++ " (line " ++ decimal line ++ ")" ++ NL.


Definition caught_line (name : string) (sig : Z) : string :=
  "caught " ++ name ++ " (signal number " ++ decimal sig ++ ")" ++ NL.

Definition summary_line (unit_name : string) (p n : Z) (elapsed : string)
  : string :=
  NL ++ NL ++ unit_name ++ " unit tests" ++ NL
  ++ "passed  " ++ decimal p ++ "/" ++ decimal n ++ NL
  ++ "time    " ++ elapsed ++ "s" ++ NL.

(** Whether an argument is the option with letter [c]: a dash, the
    letter, and anything after it. *)
Definition is_option (c : ascii) (arg : string) : bool :=
  match arg with
  | String "-"%char (String c' _) => Ascii.eqb c c'
  | _ => false
  end.

(** A command line made of the options [-s], [-c] and [-k] only. *)
Definition only_options (args : list string) : bool :=
  forallb (fun arg => is_option "s" arg || is_option "c" arg || is_option "k" arg)
    args.

(** The value of an option flag after the loop: 1 when its option was
    given, the old value otherwise. *)
Definition switched (c : ascii) (args : list string) (old : Z) : Z :=
  if existsb (is_option c) args then 1 else old.

(** * Properties *)

(** ** The lookup table *)

Section Table.

Context {P : Platform}.

Lemma read_designate (i : Z) (v : option string) (a : list (option string)) (j : Z) :
  0 <= i -> 0 <= j ->
  array_read (designate i v a) j =
  if j =? i then Some v
  else match array_read a j with
       | Some x => Some x
       | None => if j <? i then Some None else None
       end.
Proof.
  intros Hi Hj. unfold array_read, designate.
  destruct (Z.ltb_spec j 0) as [|_]; [lia|].
  set (n := Z.to_nat i). set (m := Z.to_nat j).
  assert (Hpad : length (a ++ repeat None (n - length a))%list
                 = (length a + (n - length a))%nat)
    by (rewrite length_app, repeat_length; reflexivity).
  assert (Hfirst : length (firstn n (a ++ repeat None (n - length a))%list) = n)
    by (rewrite length_firstn, Hpad; lia).
  destruct (Z.eqb_spec j i) as [->|Hne].
  - fold n. rewrite nth_error_app2 by lia.
    rewrite Hfirst, Nat.sub_diag. reflexivity.
  - destruct (Z.ltb_spec j i) as [Hlt|Hge].
    + assert (Hm : (m < n)%nat) by (subst m n; lia).
      rewrite nth_error_app1 by lia.
      rewrite nth_error_firstn.
      destruct (Nat.ltb_spec m n) as [_|]; [|lia].
      rewrite nth_error_app.
      destruct (Nat.ltb_spec m (length a)) as [Hin|Hout].
      * destruct (nth_error a m) eqn:E; [reflexivity|].
        apply nth_error_None in E. lia.
      * rewrite nth_error_repeat by lia.
        destruct (nth_error a m) eqn:E; [|reflexivity].
        assert (nth_error a m = None) by (apply nth_error_None; lia).
        congruence.
    + assert (Hm : (n < m)%nat) by (subst m n; lia).
      rewrite nth_error_app2 by lia.
      rewrite Hfirst.
      replace (m - n)%nat with (S (m - n - 1)) by lia.
      cbn [nth_error]. rewrite nth_error_skipn.
      replace (S n + (m - n - 1))%nat with m by lia.
      destruct (nth_error a m); reflexivity.
Qed.

(** Whatever the initialisers before it, the last one, [[MAX_SIGNALS] =
    NULL], makes every index up to 256 an index of the array. *)
Lemma sig_lookup_in_bounds (n : Z) :
  0 <= n <= MAX_SIGNALS -> exists entry, array_read sig_lookup n = Some entry.
Proof.
  intros Hn. unfold sig_lookup.
  rewrite read_designate by (unfold MAX_SIGNALS in *; lia).
  destruct (Z.eqb_spec n MAX_SIGNALS); [eauto|].
  destruct (array_read _ n); [eauto|].
  destruct (Z.ltb_spec n MAX_SIGNALS); [eauto|lia].
Qed.

(** The lookup never leaves the array and never hands [printf] a null
    pointer, on any platform and for any number. *)
Lemma sig_name_defined (n : Z) : exists text, sig_name n = Some (Some text).
Proof.
  unfold sig_name.
  destruct (Z.gtb_spec n 0) as [Hpos|]; simpl; [|eauto].
  destruct (Z.ltb_spec n MAX_SIGNALS) as [Hlt|]; [|eauto].
  destruct (sig_lookup_in_bounds n) as [entry ->]; [lia|].
  destruct entry; eauto.
Qed.

Lemma sig_name_out_of_range (n : Z) :
  n <= 0 \/ MAX_SIGNALS <= n -> sig_name n = Some (Some "UNKNOWN SIGNAL").
Proof.
  intros H. unfold sig_name.
  destruct (Z.gtb_spec n 0); destruct (Z.ltb_spec n MAX_SIGNALS);
    simpl; try reflexivity; lia.
Qed.

Lemma array_read_nil (A : Type) (n : Z) : array_read (@nil A) n = None.
Proof.
  unfold array_read. destruct (n <? 0); [reflexivity|].
  destruct (Z.to_nat n); reflexivity.
Qed.

Lemma NoDup_cons_neq (x y : Z) (l : list Z) :
  NoDup (x :: l) -> In y l -> x <> y.
Proof. intros H Hy ->. inversion H; contradiction. Qed.

Lemma NoDup_tail (x : Z) (l : list Z) : NoDup (x :: l) -> NoDup l.
Proof. intros H. inversion H; assumption. Qed.

(** On a platform whose six signals are distinct and lie in 1..255 the
    table gives each its name and nothing else one. *)
Lemma sig_name_is_spec (n : Z) :
  signals_positive P -> signals_distinct P -> signals_below_MAX P ->
  sig_name n = Some (Some (spec_signal_name n)).
Proof.
  unfold signals_positive, signals_distinct, signals_below_MAX.
  intros Hpos Hdis Hmax.
  rewrite Forall_forall in Hpos, Hmax.
  assert (pos_SIGABRT : 0 < SIGABRT) by (apply Hpos; cbn; tauto).
  assert (max_SIGABRT : SIGABRT < MAX_SIGNALS) by (apply Hmax; cbn; tauto).
  assert (pos_SIGFPE : 0 < SIGFPE) by (apply Hpos; cbn; tauto).
  assert (max_SIGFPE : SIGFPE < MAX_SIGNALS) by (apply Hmax; cbn; tauto).
  assert (pos_SIGILL : 0 < SIGILL) by (apply Hpos; cbn; tauto).
  assert (max_SIGILL : SIGILL < MAX_SIGNALS) by (apply Hmax; cbn; tauto).
  assert (pos_SIGINT : 0 < SIGINT) by (apply Hpos; cbn; tauto).
  assert (max_SIGINT : SIGINT < MAX_SIGNALS) by (apply Hmax; cbn; tauto).
  assert (pos_SIGSEGV : 0 < SIGSEGV) by (apply Hpos; cbn; tauto).
  assert (max_SIGSEGV : SIGSEGV < MAX_SIGNALS) by (apply Hmax; cbn; tauto).
  assert (pos_SIGTERM : 0 < SIGTERM) by (apply Hpos; cbn; tauto).
  assert (max_SIGTERM : SIGTERM < MAX_SIGNALS) by (apply Hmax; cbn; tauto).
  clear Hpos Hmax.
  assert (D1 := Hdis). apply NoDup_tail in Hdis.
  assert (D2 := Hdis). apply NoDup_tail in Hdis.
  assert (D3 := Hdis). apply NoDup_tail in Hdis.
  assert (D4 := Hdis). apply NoDup_tail in Hdis.
  assert (D5 := Hdis). clear Hdis.
  assert (SIGABRT <> SIGFPE) by (apply (NoDup_cons_neq _ _ _ D1); cbn; tauto).
  assert (SIGABRT <> SIGILL) by (apply (NoDup_cons_neq _ _ _ D1); cbn; tauto).
  assert (SIGABRT <> SIGINT) by (apply (NoDup_cons_neq _ _ _ D1); cbn; tauto).
  assert (SIGABRT <> SIGSEGV) by (apply (NoDup_cons_neq _ _ _ D1); cbn; tauto).
  assert (SIGABRT <> SIGTERM) by (apply (NoDup_cons_neq _ _ _ D1); cbn; tauto).
  assert (SIGFPE <> SIGILL) by (apply (NoDup_cons_neq _ _ _ D2); cbn; tauto).
  assert (SIGFPE <> SIGINT) by (apply (NoDup_cons_neq _ _ _ D2); cbn; tauto).
  assert (SIGFPE <> SIGSEGV) by (apply (NoDup_cons_neq _ _ _ D2); cbn; tauto).
  assert (SIGFPE <> SIGTERM) by (apply (NoDup_cons_neq _ _ _ D2); cbn; tauto).
  assert (SIGILL <> SIGINT) by (apply (NoDup_cons_neq _ _ _ D3); cbn; tauto).
  assert (SIGILL <> SIGSEGV) by (apply (NoDup_cons_neq _ _ _ D3); cbn; tauto).
  assert (SIGILL <> SIGTERM) by (apply (NoDup_cons_neq _ _ _ D3); cbn; tauto).
  assert (SIGINT <> SIGSEGV) by (apply (NoDup_cons_neq _ _ _ D4); cbn; tauto).
  assert (SIGINT <> SIGTERM) by (apply (NoDup_cons_neq _ _ _ D4); cbn; tauto).
  assert (SIGSEGV <> SIGTERM) by (apply (NoDup_cons_neq _ _ _ D5); cbn; tauto).
  clear D1 D2 D3 D4 D5.
  unfold sig_name, spec_signal_name.
  destruct (Z.gtb_spec n 0) as [Hn0|Hn0];
    destruct (Z.ltb_spec n MAX_SIGNALS) as [Hn1|Hn1]; cbn [andb].
  - unfold sig_lookup.
    rewrite !read_designate by (unfold MAX_SIGNALS; lia).
    rewrite array_read_nil.
    destruct (Z.eqb_spec n MAX_SIGNALS) as [E|_];
      [exfalso; clear - E Hn1; lia|].
    destruct (Z.eqb_spec n SIGTERM); destruct (Z.eqb_spec n SIGSEGV);
      destruct (Z.eqb_spec n SIGINT); destruct (Z.eqb_spec n SIGILL);
      destruct (Z.eqb_spec n SIGFPE); destruct (Z.eqb_spec n SIGABRT);
      try congruence; try reflexivity.
    destruct (n <? SIGABRT), (n <? SIGFPE), (n <? SIGILL), (n <? SIGINT),
      (n <? SIGSEGV), (n <? SIGTERM), (Z.ltb_spec n MAX_SIGNALS) as [|Hge];
      try reflexivity; exfalso; clear - Hn1 Hge; lia.
  - destruct (Z.eqb_spec n SIGTERM) as [E|_];
      [exfalso; clear - E Hn1 max_SIGTERM; lia|].
    destruct (Z.eqb_spec n SIGSEGV) as [E|_];
      [exfalso; clear - E Hn1 max_SIGSEGV; lia|].
    destruct (Z.eqb_spec n SIGINT) as [E|_];
      [exfalso; clear - E Hn1 max_SIGINT; lia|].
    destruct (Z.eqb_spec n SIGILL) as [E|_];
      [exfalso; clear - E Hn1 max_SIGILL; lia|].
    destruct (Z.eqb_spec n SIGFPE) as [E|_];
      [exfalso; clear - E Hn1 max_SIGFPE; lia|].
    destruct (Z.eqb_spec n SIGABRT) as [E|_];
      [exfalso; clear - E Hn1 max_SIGABRT; lia|].
    reflexivity.
  - destruct (Z.eqb_spec n SIGTERM) as [E|_];
      [exfalso; clear - E Hn0 pos_SIGTERM; lia|].
    destruct (Z.eqb_spec n SIGSEGV) as [E|_];
      [exfalso; clear - E Hn0 pos_SIGSEGV; lia|].
    destruct (Z.eqb_spec n SIGINT) as [E|_];
      [exfalso; clear - E Hn0 pos_SIGINT; lia|].
    destruct (Z.eqb_spec n SIGILL) as [E|_];
      [exfalso; clear - E Hn0 pos_SIGILL; lia|].
    destruct (Z.eqb_spec n SIGFPE) as [E|_];
      [exfalso; clear - E Hn0 pos_SIGFPE; lia|].
    destruct (Z.eqb_spec n SIGABRT) as [E|_];
      [exfalso; clear - E Hn0 pos_SIGABRT; lia|].
    reflexivity.
  - exfalso; clear - Hn0 Hn1; unfold MAX_SIGNALS in *; lia.
Qed.

Lemma print_caught_signal_name_continues (s : process) :
  exists text,
    sig_name (caught_signal s) = Some (Some text) /\
    print_caught_signal_name s =
    Continue
      (if negb (truth (is_silent s)) then
         printf ("caught " ++ text ++ " (signal number "
                 ++ decimal (caught_signal s) ++ ")" ++ NL) s
       else s).
Proof.
  destruct (sig_name_defined (caught_signal s)) as [text E].
  exists text. split; [exact E|].
  unfold print_caught_signal_name. rewrite E.
  destruct (negb (truth (is_silent s))); reflexivity.
Qed.

End Table.

(** ** Symbolic execution of the macros *)

Ltac name_the_signal :=
  match goal with
  | |- context [sig_name ?n] =>
      let text := fresh "text" in
      let E := fresh "E" in
      destruct (sig_name_defined n) as [text E]; rewrite E; cbn
  end.

Ltac split_flags :=
  repeat match goal with
         | |- context [?a =? ?b] => is_var a; destruct (Z.eqb_spec a b); cbn
         | H : truth ?c = _ |- context [truth ?c] => rewrite H; cbn
         | |- context [truth ?c] => is_var c; destruct (truth c) eqn:?; cbn
         | |- context [match ?x with _ => _ end] =>
             is_var x; destruct x; cbn
         end.

Ltac settle :=
  repeat first [ name_the_signal | progress split_flags ];
  try discriminate;
  try (intros [= <-]; cbn;
       repeat first [ name_the_signal | progress split_flags ];
       repeat split; try reflexivity).

Ltac same_shape :=
  unfold same_outcome, same_but_output, hushed; cbn;
  repeat split; reflexivity.

Ltac run_harness :=
  unfold step, must, state, test, test_caught, test_leave, test_enter,
    print_caught_signal_name, deliver, sig_abrt_handler, signal;
  rewrite ?Z.eqb_refl;
  unfold unit_tester, print_must, print_statement, print_note, and_then;
  cbn.

Section Assertions.

Context {P : Platform}.

(** A signal other than SIGABRT is not caught: it ends the process. *)
Lemma test_killed (expr : string) (line : Z) (sig : Z) (s : process) :
  sig <> SIGABRT ->
  test expr line (Raises sig) s = Stop (Killed sig) (test_enter expr line s).
Proof.
  intros Hsig. unfold test, deliver.
  destruct (Z.eqb_spec sig SIGABRT); [contradiction|reflexivity].
Qed.

(** The entry of [test] installs the handler and arms the trap, whatever
    the process was like before. *)
Lemma test_enter_armed (expr : string) (line : Z) (s : process) :
  sigabrt_action (test_enter expr line s) = fn_sig_abrt_handler /\
  jmpbuf_active (test_enter expr line s) = 1.
Proof. destruct s. run_harness. split; reflexivity. Qed.

(** A SIGABRT raised there reaches the handler, which jumps back. *)
Lemma deliver_in_window (expr : string) (line : Z) (s : process) :
  deliver SIGABRT (test_enter expr line s) =
  Jumped (set_jmpbuf_active 0
            (set_caught_signal SIGABRT (test_enter expr line s))).
Proof. destruct s. run_harness. reflexivity. Qed.

(** The branch after the jump records a failure, leaves [current_result]
    alone and puts the handler back. *)
Lemma test_caught_continues (s : process) :
  exists s', test_caught s = Continue s' /\
             sigabrt_action s' = fn_sig_abrt_handler /\
             passed s' = passed s /\
             failed s' = uint_incr (failed s) /\
             current_result s' = current_result s /\
             current_line s' = 0.
Proof.
  destruct s. run_harness. name_the_signal.
  split_flags; eexists; repeat split; reflexivity.
Qed.

Lemma test_abort_unfold (expr : string) (line : Z) (s : process) :
  test expr line (Raises SIGABRT) s =
  (s' <- test_caught
           (set_jmpbuf_active 0
              (set_caught_signal SIGABRT (test_enter expr line s))) ;;
   Continue (test_leave s')).
Proof. unfold test. rewrite deliver_in_window. reflexivity. Qed.

(** The exit of [test] resets the disposition and disarms the trap. *)
Lemma test_leave_disarmed (s : process) :
  jmpbuf_active (test_leave s) = 0 /\ sigabrt_action (test_leave s) = SIG_DFL.
Proof. destruct s. run_harness. split; reflexivity. Qed.

Lemma test_continue_is_left (expr : string) (line : Z) (e : evaluation)
  (s s' : process) :
  test expr line e s = Continue s' -> exists s0, s' = test_leave s0.
Proof.
  destruct e as [v|sig].
  - unfold test. destruct (unit_tester _ _ _ _). intros [= <-]. eauto.
  - destruct (Z.eqb_spec sig SIGABRT) as [->|Hsig].
    + rewrite test_abort_unfold.
      destruct (test_caught_continues
                  (set_jmpbuf_active 0
                     (set_caught_signal SIGABRT (test_enter expr line s))))
        as (s1 & -> & _).
      cbn. intros [= <-]. eauto.
    + rewrite test_killed by assumption. discriminate.
Qed.

(** With the default disposition SIGABRT ends the process. *)
Lemma deliver_default (sig : Z) (s : process) :
  sigabrt_action s = SIG_DFL -> deliver sig s = Terminated sig s.
Proof.
  intros H. unfold deliver. rewrite H. destruct (sig =? SIGABRT); reflexivity.
Qed.

(** A [must] runs its [test] and then consults [current_result]. *)
Lemma must_after_test (expr : string) (line : Z) (e : evaluation)
  (s s' : process) :
  test expr line e (print_must expr s) = Continue s' ->
  must expr line e s =
  if negb (truth (current_result s')) then Stop (Exited (-1)) s'
  else Continue s'.
Proof. intros H. unfold must. rewrite H. reflexivity. Qed.

Lemma print_must_frame (expr : string) (s : process) :
  passed (print_must expr s) = passed s /\
  failed (print_must expr s) = failed s /\
  current_result (print_must expr s) = current_result s /\
  jmpbuf_active (print_must expr s) = jmpbuf_active s.
Proof. destruct s. run_harness. split_flags; repeat split; reflexivity. Qed.

(** What a [test] that runs to its end has done to the tally and to
    [current_result], by the way its expression behaved. *)
Lemma test_value_effect (expr : string) (line v : Z) (s : process) :
  exists s', test expr line (Value v) s = Continue s' /\
             current_result s' = (if v =? 0 then 0 else 1) /\
             passed s' = (if v =? 0 then passed s else uint_incr (passed s)) /\
             failed s' = (if v =? 0 then uint_incr (failed s) else failed s).
Proof.
  destruct s. run_harness. split_flags; eexists; repeat split; reflexivity.
Qed.

Lemma test_abort_effect (expr : string) (line : Z) (s : process) :
  exists s', test expr line (Raises SIGABRT) s = Continue s' /\
             current_result s' = current_result s /\
             passed s' = passed s /\
             failed s' = uint_incr (failed s) /\
             current_line s' = 0.
Proof.
  rewrite test_abort_unfold.
  destruct (test_caught_continues
              (set_jmpbuf_active 0
                 (set_caught_signal SIGABRT (test_enter expr line s))))
    as (s1 & -> & _ & Hp & Hf & Hr & Hl).
  exists (test_leave s1). split; [reflexivity|].
  destruct s, s1. revert Hp Hf Hr Hl. run_harness. intros -> -> -> ->.
  repeat split; reflexivity.
Qed.

(** ** Sequences of calls *)

(** A call that lets the run go on has moved the tally by the outcome of
    its assertion, if it is one. *)
Lemma step_tally (c : call) (s s' : process) :
  step c s = Continue s' ->
  passed s' = (if passes_assertion c then uint_incr (passed s) else passed s) /\
  failed s' = (if fails_assertion c then uint_incr (failed s) else failed s).
Proof.
  destruct c as [name|stmt e|k stmt e|expr line e|expr line e];
    try destruct e as [v|sig]; destruct s; run_harness; settle.
Qed.

(** The trap is never left armed; with it disarmed no statement can jump. *)
Lemma step_disarmed (c : call) (s s' : process) :
  jmpbuf_active s = 0 -> step c s = Continue s' -> jmpbuf_active s' = 0.
Proof.
  destruct c as [name|stmt e|k stmt e|expr line e|expr line e];
    try destruct e as [v|sig]; destruct s; cbn [jmpbuf_active]; intros ->;
    run_harness; settle.
Qed.

Lemma step_defined (c : call) (s s' : process) :
  jmpbuf_active s = 0 -> step c s <> Stop Undefined s'.
Proof.
  destruct c as [name|stmt e|k stmt e|expr line e|expr line e];
    try destruct e as [v|sig]; destruct s; cbn [jmpbuf_active]; intros ->;
    run_harness; settle.
Qed.

Lemma step_never_returns (c : call) (s s' : process) (code : Z) :
  step c s <> Stop (Returned code) s'.
Proof.
  destruct c as [name|stmt e|k stmt e|expr line e|expr line e];
    try destruct e as [v|sig]; destruct s; run_harness; settle.
Qed.

Lemma run_cons (c : call) (calls : list call) (s : process) :
  run (c :: calls) s = (s' <- step c s ;; run calls s').
Proof. reflexivity. Qed.


Lemma run_disarmed (calls : list call) (s s' : process) :
  jmpbuf_active s = 0 -> run calls s = Continue s' -> jmpbuf_active s' = 0.
Proof.
  revert s. induction calls as [|c calls IH]; intros s Hs.
  - intros [= <-]. exact Hs.
  - rewrite run_cons. destruct (step c s) as [s1|] eqn:E; [|discriminate].
    cbn. apply IH. eapply step_disarmed; eassumption.
Qed.

(** From a process whose trap is disarmed, as it is at start, no run
    strays into undefined behaviour. *)
Lemma run_defined (calls : list call) (s s' : process) :
  jmpbuf_active s = 0 -> run calls s <> Stop Undefined s'.
Proof.
  revert s. induction calls as [|c calls IH]; intros s Hs; [discriminate|].
  rewrite run_cons. destruct (step c s) as [s1|e s1] eqn:E; cbn.
  - apply IH. eapply step_disarmed; eassumption.
  - intros [= -> ->]. eapply step_defined; eassumption.
Qed.

Lemma run_never_returns (calls : list call) (s s' : process) (code : Z) :
  run calls s <> Stop (Returned code) s'.
Proof.
  revert s. induction calls as [|c calls IH]; intros s; [discriminate|].
  rewrite run_cons. destruct (step c s) as [s1|e s1] eqn:E; cbn.
  - apply IH.
  - intros [= -> ->]. eapply step_never_returns; eassumption.
Qed.

(** *** Counting *)

Lemma passes_cons (c : call) (calls : list call) :
  passes (c :: calls) = (if passes_assertion c then 1 else 0) + passes calls.
Proof.
  unfold passes. cbn [filter]. destruct (passes_assertion c); cbn [length]; lia.
Qed.

Lemma failures_cons (c : call) (calls : list call) :
  failures (c :: calls) = (if fails_assertion c then 1 else 0) + failures calls.
Proof.
  unfold failures. cbn [filter]. destruct (fails_assertion c); cbn [length]; lia.
Qed.

Lemma assertions_cons (c : call) (calls : list call) :
  assertions (c :: calls) = (if is_assertion c then 1 else 0) + assertions calls.
Proof.
  unfold assertions. cbn [filter]. destruct (is_assertion c); cbn [length]; lia.
Qed.

Lemma passes_nonneg (calls : list call) : 0 <= passes calls.
Proof. unfold passes. lia. Qed.

Lemma failures_nonneg (calls : list call) : 0 <= failures calls.
Proof. unfold failures. lia. Qed.

(** Every assertion either passes or fails. *)
Lemma passes_plus_failures (calls : list call) :
  passes calls + failures calls = assertions calls.
Proof.
  induction calls as [|c calls IH]; [reflexivity|].
  rewrite passes_cons, failures_cons, assertions_cons, <- IH.
  destruct c as [| | |? ? e|? ? e];
    cbn [passes_assertion fails_assertion is_assertion];
    try destruct (spec_outcome e); cbn [negb]; lia.
Qed.

(** *** [unsigned] arithmetic *)

Lemma uint_incr_range (x : Z) :
  0 <= UINT_MAX -> 0 <= uint_incr x <= UINT_MAX.
Proof.
  intros H. unfold uint_incr.
  pose proof (Z.mod_pos_bound (x + 1) (UINT_MAX + 1)). lia.
Qed.

Lemma uint_incr_plus (x k : Z) :
  (uint_incr x + k) mod (UINT_MAX + 1) = (x + (1 + k)) mod (UINT_MAX + 1).
Proof.
  unfold uint_incr. rewrite Zplus_mod_idemp_l. f_equal. lia.
Qed.

(** The counters after a run that reaches its end, from counters in the
    range of [unsigned]. *)
Lemma run_tally (calls : list call) (s s' : process) :
  0 <= UINT_MAX ->
  0 <= passed s <= UINT_MAX -> 0 <= failed s <= UINT_MAX ->
  run calls s = Continue s' ->
  passed s' = (passed s + passes calls) mod (UINT_MAX + 1) /\
  failed s' = (failed s + failures calls) mod (UINT_MAX + 1).
Proof.
  intros HM. revert s. induction calls as [|c calls IH]; intros s Hp Hf.
  - intros [= <-]. unfold passes, failures. cbn.
    rewrite !Z.add_0_r, !Z.mod_small by lia. split; reflexivity.
  - rewrite run_cons. destruct (step c s) as [s1|] eqn:E; [|discriminate].
    cbn. intros Hrun. destruct (step_tally _ _ _ E) as [Hp1 Hf1].
    rewrite passes_cons, failures_cons.
    destruct (IH s1) as [-> ->]; try assumption.
    + rewrite Hp1. destruct (passes_assertion c);
        [apply uint_incr_range|]; assumption.
    + rewrite Hf1. destruct (fails_assertion c);
        [apply uint_incr_range|]; assumption.
    + rewrite Hp1, Hf1. split.
      * destruct (passes_assertion c); [apply uint_incr_plus|reflexivity].
      * destruct (fails_assertion c); [apply uint_incr_plus|reflexivity].
Qed.

(** ** Silent mode *)

Lemma same_but_output_fields (s1 s2 : process) :
  same_but_output s1 s2 ->
  passed s1 = passed s2 /\ failed s1 = failed s2 /\
  current_result s1 = current_result s2 /\
  keep_files s1 = keep_files s2 /\ stderr s1 = stderr s2.
Proof.
  destruct s1, s2. unfold same_but_output, hushed. cbn.
  intros [= -> -> -> -> -> -> -> -> -> -> ->]. repeat split; reflexivity.
Qed.


Lemma set_is_silent_same (a b : Z) (s : process) :
  same_but_output (set_is_silent a s) (set_is_silent b s).
Proof. destruct s. reflexivity. Qed.

(** Two processes that differ in the flag and in the text printed so far
    take every call the same way. *)
Lemma step_same (c : call) (s1 s2 : process) :
  same_but_output s1 s2 -> same_outcome (step c s1) (step c s2).
Proof.
  destruct s1, s2. unfold same_but_output, hushed. cbn.
  intros [= -> -> -> -> -> -> -> -> -> -> ->].
  destruct c as [name|stmt e|k stmt e|expr line e|expr line e];
    try destruct e as [v|sig]; run_harness;
    repeat first [ name_the_signal | progress split_flags ]; same_shape.
Qed.

Lemma run_same (calls : list call) (s1 s2 : process) :
  same_but_output s1 s2 -> same_outcome (run calls s1) (run calls s2).
Proof.
  revert s1 s2. induction calls as [|c calls IH]; intros s1 s2 H.
  - exact H.
  - rewrite !run_cons. pose proof (step_same c s1 s2 H) as Hc.
    destruct (step c s1), (step c s2); cbn in Hc |- *;
      try contradiction; auto.
Qed.

Lemma unit_test_start_same (name now : string) (s1 s2 : process) :
  same_but_output s1 s2 ->
  same_but_output (snd (unit_test_start name now s1))
                  (snd (unit_test_start name now s2)).
Proof.
  destruct s1, s2. unfold same_but_output, hushed. cbn.
  intros [= -> -> -> -> -> -> -> -> -> -> ->].
  unfold unit_test_start, signal. rewrite Z.eqb_refl. cbn.
  split_flags; reflexivity.
Qed.

Lemma unit_test_end_same (name elapsed : string) (s1 s2 : process) :
  same_but_output s1 s2 ->
  fst (unit_test_end name elapsed s1) = fst (unit_test_end name elapsed s2) /\
  same_but_output (snd (unit_test_end name elapsed s1))
                  (snd (unit_test_end name elapsed s2)).
Proof.
  destruct s1, s2. unfold same_but_output, hushed. cbn.
  intros [= -> -> -> -> -> -> -> -> -> -> ->].
  unfold unit_test_end. cbn. split_flags; split; reflexivity.
Qed.

Lemma run_suite_same (name : string) (calls : list call) (now elapsed : string)
  (s1 s2 : process) :
  same_but_output s1 s2 ->
  same_outcome (run_suite name calls now elapsed s1)
               (run_suite name calls now elapsed s2).
Proof.
  intros H. unfold run_suite.
  pose proof (unit_test_start_same name now s1 s2 H) as Hstart.
  destruct (unit_test_start name now s1) as [z1 t1].
  destruct (unit_test_start name now s2) as [z2 t2].
  cbn [snd] in Hstart.
  pose proof (run_same calls t1 t2 Hstart) as Hrun.
  destruct (run calls t1) as [u1|e1 u1], (run calls t2) as [u2|e2 u2];
    cbn [and_then same_outcome] in Hrun |- *; try contradiction;
    [|exact Hrun].
  destruct (unit_test_end_same name elapsed u1 u2 Hrun) as [Hv Hs].
  destruct (unit_test_end name elapsed u1) as [v1 w1].
  destruct (unit_test_end name elapsed u2) as [v2 w2].
  cbn [fst snd same_outcome] in Hv, Hs |- *. subst v2.
  split; [reflexivity|exact Hs].
Qed.

(** In silent mode a call prints nothing, and leaves the flag alone. *)
Lemma step_silent (c : call) (s : process) :
  truth (is_silent s) = true ->
  stdout (final (step c s)) = stdout s /\
  is_silent (final (step c s)) = is_silent s.
Proof.
  destruct s. cbn [is_silent stdout]. intros Hs.
  destruct c as [name|stmt e|k stmt e|expr line e|expr line e];
    try destruct e as [v|sig]; run_harness;
    repeat first [ name_the_signal | progress split_flags ];
    split; reflexivity.
Qed.

Lemma run_silent (calls : list call) (s : process) :
  truth (is_silent s) = true ->
  stdout (final (run calls s)) = stdout s /\
  is_silent (final (run calls s)) = is_silent s.
Proof.
  revert s. induction calls as [|c calls IH]; intros s Hs.
  - split; reflexivity.
  - rewrite run_cons. destruct (step_silent c s Hs) as [Ho Hq].
    destruct (step c s) as [s1|e s1]; cbn in Ho, Hq |- *.
    + rewrite <- Ho, <- Hq. apply IH. rewrite Hq. exact Hs.
    + split; assumption.
Qed.

Lemma run_suite_silent (name : string) (calls : list call)
  (now elapsed : string) (s : process) :
  truth (is_silent s) = true ->
  stdout (final (run_suite name calls now elapsed s)) = stdout s.
Proof.
  intros Hs. unfold run_suite.
  assert (Hstart : stdout (snd (unit_test_start name now s)) = stdout s /\
                   is_silent (snd (unit_test_start name now s)) = is_silent s).
  { destruct s. cbn [is_silent] in Hs. unfold unit_test_start, signal.
    rewrite Z.eqb_refl. cbn. rewrite Hs. cbn.
    destruct sigabrt_action0; split; reflexivity. }
  destruct (unit_test_start name now s) as [z t]. cbn [snd] in Hstart.
  destruct Hstart as [Ho Hq].
  assert (Ht : truth (is_silent t) = true) by (rewrite Hq; exact Hs).
  destruct (run_silent calls t Ht) as [Ho' Hq'].
  destruct (run calls t) as [u|e u]; cbn [final and_then] in Ho', Hq' |- *;
    [|congruence].
  assert (Hu : truth (is_silent u) = true) by (rewrite Hq'; exact Ht).
  assert (Hend : stdout (snd (unit_test_end name elapsed u)) = stdout u).
  { destruct u. cbn [is_silent] in Hu. unfold unit_test_end. cbn.
    rewrite Hu. reflexivity. }
  destruct (unit_test_end name elapsed u) as [v w].
  cbn [snd final] in Hend |- *. congruence.
Qed.

(** ** The driver *)

Lemma unit_test_start_frame (name now : string) (s : process) :
  passed (snd (unit_test_start name now s)) = passed s /\
  failed (snd (unit_test_start name now s)) = failed s /\
  jmpbuf_active (snd (unit_test_start name now s)) = jmpbuf_active s /\
  sigabrt_action (snd (unit_test_start name now s)) = fn_sig_abrt_handler.
Proof.
  destruct s. unfold unit_test_start, signal. rewrite Z.eqb_refl. cbn.
  split_flags; repeat split; reflexivity.
Qed.

Lemma unit_test_end_value (name elapsed : string) (s : process) :
  fst (unit_test_end name elapsed s) = failed s /\
  passed (snd (unit_test_end name elapsed s)) = passed s /\
  failed (snd (unit_test_end name elapsed s)) = failed s.
Proof.
  destruct s. unfold unit_test_end. cbn. split_flags; repeat split; reflexivity.
Qed.

(** A suite returns only from its last line, with [!!] of what
    [unit_test_end] hands back. *)
Lemma run_suite_returned (name : string) (calls : list call)
  (now elapsed : string) (s s' : process) (code : Z) :
  run_suite name calls now elapsed s = Stop (Returned code) s' ->
  exists s1,
    run calls (snd (unit_test_start name now s)) = Continue s1 /\
    code = (if failed s1 =? 0 then 0 else 1) /\
    passed s' = passed s1 /\ failed s' = failed s1.
Proof.
  unfold run_suite.
  destruct (unit_test_start name now s) as [z t]. cbn [snd].
  destruct (run calls t) as [s1|e s1] eqn:Hrun; cbn [and_then].
  - destruct (unit_test_end_value name elapsed s1) as (Hv & Hp & Hf).
    destruct (unit_test_end name elapsed s1) as [v w].
    cbn [fst snd] in Hv, Hp, Hf. intros [= <- <-].
    exists s1. subst v. repeat split; assumption.
  - intros [= -> ->]. exfalso. eapply run_never_returns; eassumption.
Qed.

(** The argument loop touches the three option flags and [stderr]. *)
Lemma arguments_frame (argv0 : string) (args : list string) (s s' : process) :
  arguments argv0 args s = Continue s' ->
  passed s' = passed s /\ failed s' = failed s /\
  jmpbuf_active s' = jmpbuf_active s.
Proof.
  revert s. induction args as [|arg args IH]; intros s.
  - intros [= <-]. repeat split; reflexivity.
  - cbn [arguments].
    repeat match goal with
           | |- context [match ?x with _ => _ end] => is_var x; destruct x
           end;
      try discriminate;
      try (intros [= <-]; repeat split; reflexivity);
      intros H; apply IH in H; destruct s; exact H.
Qed.

Lemma arguments_same (argv0 : string) (args : list string) (s1 s2 : process) :
  same_but_output s1 s2 ->
  same_outcome (arguments argv0 args s1) (arguments argv0 args s2).
Proof.
  revert s1 s2. induction args as [|arg args IH]; intros s1 s2 H.
  - exact H.
  - assert (Hset : forall f : process -> process,
               (forall t1 t2, same_but_output t1 t2 ->
                              same_but_output (f t1) (f t2)) ->
               same_outcome (arguments argv0 args (f s1))
                            (arguments argv0 args (f s2)))
      by (intros f Hf; apply IH, Hf, H).
    assert (Hstop : forall text text' : string,
               same_outcome
                 (Stop (Returned (-1))
                    (fprintf_stderr text' (fprintf_stderr text s1)))
                 (Stop (Returned (-1))
                    (fprintf_stderr text' (fprintf_stderr text s2)))).
    { intros text text'. destruct s1, s2. revert H.
      unfold same_but_output, hushed. cbn.
      intros [= -> -> -> -> -> -> -> -> -> -> ->]. split; reflexivity. }
    assert (Hstop1 : forall text : string,
               same_outcome
                 (Stop (Returned (-1)) (fprintf_stderr text s1))
                 (Stop (Returned (-1)) (fprintf_stderr text s2))).
    { intros text. destruct s1, s2. revert H.
      unfold same_but_output, hushed. cbn.
      intros [= -> -> -> -> -> -> -> -> -> -> ->]. split; reflexivity. }
    cbn [arguments].
    repeat match goal with
           | |- context [match ?x with _ => _ end] => is_var x; destruct x
           end;
      try exact H; try apply Hstop; try apply Hstop1;
      apply Hset; intros t1 t2; destruct t1, t2;
      unfold same_but_output, hushed; cbn;
      intros [= -> -> -> -> -> -> -> -> -> -> ->]; reflexivity.
Qed.

(** With the flag off every assertion writes its line. *)
Lemma test_loud_line (expr : string) (line v : Z) (s : process) :
  exists text,
    stdout (final (test expr line (Value v) (set_is_silent 0 s)))
    = (stdout s ++ [text])%list.
Proof.
  destruct s. run_harness. split_flags; eexists; reflexivity.
Qed.

Lemma arguments_stdout (argv0 : string) (args : list string) (s : process) :
  stdout (final (arguments argv0 args s)) = stdout s /\
  (truth (is_silent s) = true ->
   truth (is_silent (final (arguments argv0 args s))) = true).
Proof.
  revert s. induction args as [|arg args IH]; intros s.
  - split; [reflexivity|auto].
  - cbn [arguments].
    repeat match goal with
           | |- context [match ?x with _ => _ end] => is_var x; destruct x
           end;
      try (split; [reflexivity|auto]);
      try (destruct s; split; [reflexivity|auto]);
      match goal with
      | |- context [arguments argv0 args ?t] =>
          destruct (IH t) as [Ho Hq]; destruct s; split;
          [exact Ho | intros Hs; apply Hq; try exact Hs; reflexivity]
      end.
Qed.

Lemma same_outcome_exit_status (r1 r2 : result) :
  same_outcome r1 r2 -> exit_status r1 = exit_status r2.
Proof.
  destruct r1, r2; cbn; try contradiction; [reflexivity|].
  intros [-> _]. reflexivity.
Qed.

Lemma same_outcome_tally (r1 r2 : result) :
  same_outcome r1 r2 ->
  passed (final r1) = passed (final r2) /\
  failed (final r1) = failed (final r2).
Proof.
  destruct r1 as [s1|e1 s1], r2 as [s2|e2 s2]; cbn; try contradiction.
  - intros H. apply same_but_output_fields in H. tauto.
  - intros [_ H]. apply same_but_output_fields in H. tauto.
Qed.

(** The libforth suite holds 65 assertions, whatever they do. *)
Lemma libforth_tests_assertions (behaviour : Z -> evaluation) (k : Z) :
  assertions (libforth_tests behaviour k) = 65.
Proof. reflexivity. Qed.

Lemma main_same (argv0 : string) (args : list string) (now elapsed : string)
  (behaviour : Z -> evaluation) :
  same_outcome (main (argv0 :: "-s" :: args) now elapsed behaviour)
               (main (argv0 :: args) now elapsed behaviour).
Proof.
  unfold main. cbn [hd tl arguments].
  pose proof (arguments_same argv0 args (set_is_silent 1 startup) startup
                (eq_refl : same_but_output (set_is_silent 1 startup) startup))
    as H.
  destruct (arguments argv0 args (set_is_silent 1 startup)) as [s1|e1 s1],
           (arguments argv0 args startup) as [s2|e2 s2];
    cbn [and_then same_outcome] in H |- *; try contradiction; [|exact H].
  destruct (same_but_output_fields _ _ H) as (_ & _ & _ & -> & _).
  apply run_suite_same, H.
Qed.

Lemma main_silent (argv0 : string) (args : list string) (now elapsed : string)
  (behaviour : Z -> evaluation) :
  stdout (final (main (argv0 :: "-s" :: args) now elapsed behaviour)) = [].
Proof.
  unfold main. cbn [hd tl arguments].
  destruct (arguments_stdout argv0 args (set_is_silent 1 startup)) as [Ho Hq].
  specialize (Hq eq_refl).
  destruct (arguments argv0 args (set_is_silent 1 startup)) as [s1|e1 s1];
    cbn [and_then final] in Ho, Hq |- *; [|exact Ho].
  rewrite run_suite_silent by exact Hq. exact Ho.
Qed.

(** No run of [main] strays into undefined behaviour: the table is read
    within its bounds, and no statement runs with the trap armed. *)
Lemma main_defined (argv : list string) (now elapsed : string)
  (behaviour : Z -> evaluation) (s' : process) :
  main argv now elapsed behaviour <> Stop Undefined s'.
Proof.
  unfold main.
  destruct (arguments (hd "" argv) (tl argv) startup) as [s0|e s0] eqn:Hargs;
    cbn [and_then].
  - destruct (arguments_frame _ _ _ _ Hargs) as (_ & _ & Hj). cbn in Hj.
    unfold run_suite.
    destruct (unit_test_start_frame "libforth" now s0) as (_ & _ & Hj0 & _).
    destruct (unit_test_start "libforth" now s0) as [z t]. cbn [snd] in Hj0.
    destruct (run (libforth_tests behaviour (keep_files s0)) t)
      as [u|e u] eqn:Hrun; cbn [and_then].
    + destruct (unit_test_end "libforth" elapsed u). discriminate.
    + intros [= -> ->]. eapply run_defined; [|exact Hrun]. congruence.
  - intros [= -> ->]. revert Hargs. generalize startup.
    induction (tl argv) as [|arg args IH]; intros s; [discriminate|].
    cbn [arguments].
    repeat match goal with
           | |- context [match ?x with _ => _ end] => is_var x; destruct x
           end; try discriminate; apply IH.
Qed.

End Assertions.

(** * The specification's claims, C1 to C10 *)

(** C10.  The handler stores the number of the delivered signal in
    [caught_signal] in every process it runs in; with no recovery point
    armed ([jmpbuf_active == 0]) that store is all it does, and it leaves
    by [return], without [longjmp]. *)
Theorem sig_abrt_handler_unarmed (sig : Z) (s : process) :
  jmpbuf_active s = 0 ->
  (forall s0, caught_signal (snd (sig_abrt_handler sig s0)) = sig) /\
  sig_abrt_handler sig s = (handler_returns, set_caught_signal sig s).
Proof.
  intros H. split.
  - intros s0. destruct s0. unfold sig_abrt_handler. cbn.
    destruct (truth jmpbuf_active0); reflexivity.
  - destruct s. cbn in H. subst. reflexivity.
Qed.

Lemma sig_abrt_handler_unarmed_witness :
  jmpbuf_active startup = 0 /\
  sig_abrt_handler 6 startup = (handler_returns, set_caught_signal 6 startup).
Proof.
  split; [reflexivity|].
  apply (sig_abrt_handler_unarmed 6 startup). reflexivity.
Defined.

(** C9.  When [test] has run to its end, by whichever path, the trap is
    disarmed: [jmpbuf_active] is 0 and SIGABRT is back at [SIG_DFL], though
    [unit_test_start] had installed the handler.  A SIGABRT raised before
    the next assertion, as from a [state] statement, ends the process; the
    next assertion is protected because [test] installs the handler and
    arms the trap on entry. *)
Theorem test_leaves_trap_disarmed {P : Platform}
  (expr : string) (line : Z) (e : evaluation) (s s' : process) :
  test expr line e s = Continue s' ->
  jmpbuf_active s' = 0 /\
  sigabrt_action s' = SIG_DFL /\
  deliver SIGABRT s' = Terminated SIGABRT s' /\
  (forall stmt, state stmt (Raises SIGABRT) s'
                = Stop (Killed SIGABRT) (print_statement stmt s')) /\
  (forall name now s0,
      sigabrt_action (snd (unit_test_start name now s0)) = fn_sig_abrt_handler) /\
  (forall expr' line',
      sigabrt_action (test_enter expr' line' s') = fn_sig_abrt_handler /\
      jmpbuf_active (test_enter expr' line' s') = 1).
Proof.
  intros H. destruct (test_continue_is_left _ _ _ _ _ H) as [s0 ->].
  destruct (test_leave_disarmed s0) as [Hj Ha].
  repeat split.
  - exact Hj.
  - exact Ha.
  - apply deliver_default, Ha.
  - intros stmt. unfold state.
    rewrite deliver_default; [reflexivity|].
    destruct s0. run_harness. split_flags; reflexivity.
  - intros name now s1. apply unit_test_start_frame.
  - apply test_enter_armed.
  - apply test_enter_armed.
Qed.

Lemma test_leaves_trap_disarmed_witness :
  exists s',
    test (P := linux) "forth_pop(f) == 4" 235 (Raises 6) startup = Continue s' /\
    jmpbuf_active s' = 0 /\ sigabrt_action s' = SIG_DFL.
Proof.
  eexists. split; [vm_compute; reflexivity|].
  pose proof (test_leaves_trap_disarmed (P := linux)
                "forth_pop(f) == 4" 235 (Raises 6) startup _ eq_refl) as H.
  split; [exact (proj1 H) | exact (proj1 (proj2 H))].
Defined.


(** C1 (the code departs from the claim).  When the expression yields a
    value, [current_result] is its truth after the macro.  But the branch
    of [test] taken after a caught signal stores the value of [unit_tester] in
    [current_line], not in [current_result] (line 118).  So after a [test]
    interrupted by a caught SIGABRT, [current_result] is what the
    assertion before it left, here the 1 of a passing one, although the
    failure has been counted; and a [must] interrupted in the same way
    reads that stale 1 and goes on instead of leaving with [exit(-1)]. *)
Theorem caught_signal_leaves_current_result_stale {P : Platform}
  (expr0 expr : string) (line0 line : Z) (s : process) :
  (forall v, exists s',
      test expr line (Value v) s = Continue s' /\
      current_result s' = (if v =? 0 then 0 else 1)) /\
  exists s1 s2 s3,
    test expr0 line0 (Value 1) s = Continue s1 /\
    current_result s1 = 1 /\
    test expr line (Raises SIGABRT) s1 = Continue s2 /\
    failed s2 = uint_incr (failed s1) /\
    current_result s2 = 1 /\
    current_line s2 = 0 /\
    must expr line (Raises SIGABRT) s1 = Continue s3 /\
    failed s3 = uint_incr (failed s1) /\
    current_result s3 = 1.
Proof.
  split.
  { intros v. destruct (test_value_effect expr line v s) as (s' & H & Hr & _).
    exists s'. split; assumption. }
  destruct (test_value_effect expr0 line0 1 s) as (s1 & H1 & Hr1 & _).
  cbn in Hr1.
  destruct (test_abort_effect expr line s1)
    as (s2 & H2 & Hr2 & _ & Hf2 & Hl2).
  destruct (test_abort_effect expr line (print_must expr s1))
    as (s3 & H3 & Hr3 & _ & Hf3 & _).
  destruct (print_must_frame expr s1) as (_ & Hfm & Hrm & _).
  exists s1, s2, s3. repeat split; try assumption; try congruence.
  - rewrite (must_after_test _ _ _ _ _ H3).
    replace (current_result s3) with 1 by congruence. reflexivity.
Qed.

(** C4 (the code departs from the claim).  A [test] whose outcome is
    failure lets the run go on, and a [must] whose expression yields zero
    ends the process with [exit(-1)] before any later call.  But a [must]
    that fails through a caught signal, coming after an assertion that
    passed, does not end the process: the run goes on and the assertion
    after it is counted.  The defect is the one of C1. *)
Theorem assertion_counted_after_interrupted_must {P : Platform}
  (expr0 expr1 expr2 : string) (line0 line1 line2 : Z) (s : process) :
  (exists s', test expr1 line1 (Value 0) s = Continue s') /\
  (forall calls, exists s',
      run (c_must expr1 line1 (Value 0) :: calls) s = Stop (Exited (-1)) s' /\
      passed s' = passed s /\ failed s' = uint_incr (failed s)) /\
  (exists s',
      run [c_test expr0 line0 (Value 1);
           c_must expr1 line1 (Raises SIGABRT);
           c_test expr2 line2 (Value 1)] s = Continue s' /\
      failed s' = uint_incr (failed s) /\
      passed s' = uint_incr (uint_incr (passed s))).
Proof.
  split; [|split].
  - destruct (test_value_effect expr1 line1 0 s) as (s' & H & _). eauto.
  - intros calls.
    destruct (test_value_effect expr1 line1 0 (print_must expr1 s))
      as (s' & H & Hr & Hp & Hf).
    cbn in Hr, Hp, Hf.
    destruct (print_must_frame expr1 s) as (Hpm & Hfm & _).
    exists s'. rewrite run_cons. cbn [step].
    rewrite (must_after_test _ _ _ _ _ H), Hr. cbn.
    repeat split; congruence.
  - destruct (test_value_effect expr0 line0 1 s) as (s1 & H1 & Hr1 & Hp1 & Hf1).
    cbn in Hr1, Hp1, Hf1.
    destruct (test_abort_effect expr1 line1 (print_must expr1 s1))
      as (s2 & H2 & Hr2 & Hp2 & Hf2 & _).
    destruct (print_must_frame expr1 s1) as (Hpm & Hfm & Hrm & _).
    destruct (test_value_effect expr2 line2 1 s2) as (s3 & H3 & _ & Hp3 & Hf3).
    cbn in Hp3, Hf3.
    exists s3. rewrite !run_cons. cbn [step run]. rewrite H1. cbn [and_then].
    rewrite (must_after_test _ _ _ _ _ H2).
    replace (current_result s2) with 1 by congruence.
    change (truth 1) with true. cbn [negb and_then step run].
    rewrite H3. cbn [and_then].
    repeat split; congruence.
Qed.

(** C3.  Each [test] and each [must], on the path where the expression
    yields a value and on the path where its SIGABRT is caught, moves
    exactly one of [passed] and [failed], by one [++], and leaves the
    other as it was.  After a sequence of calls holding N assertions that
    has run to its end, [passed + failed == N] in [unsigned] arithmetic;
    and from zero counters, with N in the range of [unsigned], [passed]
    is the number of assertions that passed, [failed] the number that
    failed, and their sum is N. *)
Theorem tally_counts_each_assertion_once {P : Platform} :
  (forall expr line v s,
      counted_once s (final (test expr line (Value v) s))) /\
  (forall expr line s,
      counted_once s (final (test expr line (Raises SIGABRT) s))) /\
  (forall expr line v s,
      counted_once s (final (must expr line (Value v) s))) /\
  (forall expr line s,
      counted_once s (final (must expr line (Raises SIGABRT) s))) /\
  (forall calls s s',
      unsigned_wide P ->
      0 <= passed s <= UINT_MAX -> 0 <= failed s <= UINT_MAX ->
      run calls s = Continue s' ->
      uint_add (passed s') (failed s')
      = (passed s + failed s + assertions calls) mod (UINT_MAX + 1)) /\
  (forall calls s s',
      unsigned_wide P ->
      passed s = 0 -> failed s = 0 -> assertions calls <= UINT_MAX ->
      run calls s = Continue s' ->
      passed s' = passes calls /\ failed s' = failures calls /\
      passed s' + failed s' = assertions calls).
Proof.
  assert (Htest_value : forall expr line v s,
             counted_once s (final (test expr line (Value v) s))).
  { intros expr line v s.
    destruct (test_value_effect expr line v s) as (s' & -> & _ & Hp & Hf).
    cbn [final]. unfold counted_once. rewrite Hp, Hf.
    destruct (v =? 0); [right|left]; split; reflexivity. }
  assert (Htest_abort : forall expr line s,
             counted_once s (final (test expr line (Raises SIGABRT) s))).
  { intros expr line s.
    destruct (test_abort_effect expr line s) as (s' & -> & _ & Hp & Hf & _).
    cbn [final]. right. split; assumption. }
  assert (Hmust : forall expr line e s,
             counted_once (print_must expr s)
               (final (test expr line e (print_must expr s))) ->
             (exists s', test expr line e (print_must expr s) = Continue s') ->
             counted_once s (final (must expr line e s))).
  { intros expr line e s Hc [s' H]. rewrite H in Hc. cbn [final] in Hc.
    rewrite (must_after_test _ _ _ _ _ H).
    destruct (print_must_frame expr s) as (Hp & Hf & _).
    unfold counted_once in *. rewrite Hp, Hf in Hc.
    destruct (negb (truth (current_result s'))); exact Hc. }
  refine (conj _ (conj _ (conj _ (conj _ (conj _ _))))).
  - exact Htest_value.
  - exact Htest_abort.
  - intros expr line v s. apply Hmust; [apply Htest_value|].
    destruct (test_value_effect expr line v (print_must expr s))
      as (s' & H & _). eauto.
  - intros expr line s. apply Hmust; [apply Htest_abort|].
    destruct (test_abort_effect expr line (print_must expr s))
      as (s' & H & _). eauto.
  - intros calls s s' Hwide Hp Hf Hrun. unfold unsigned_wide in Hwide.
    destruct (run_tally calls s s') as [-> ->]; try assumption; try lia.
    unfold uint_add. rewrite <- Zplus_mod, <- passes_plus_failures.
    f_equal. lia.
  - intros calls s s' Hwide Hp Hf Hn Hrun. unfold unsigned_wide in Hwide.
    pose proof (passes_nonneg calls). pose proof (failures_nonneg calls).
    pose proof (passes_plus_failures calls).
    destruct (run_tally calls s s') as [Hp' Hf']; try assumption; try lia.
    rewrite Hp, Z.add_0_l, Z.mod_small in Hp' by lia.
    rewrite Hf, Z.add_0_l, Z.mod_small in Hf' by lia.
    lia.
Qed.

Lemma tally_counts_each_assertion_once_witness :
  let calls :=
    [c_test "a" 1 (Value 1); c_must "b" 2 (Value 7);
     c_state "c" (Value 0); c_test "d" 4 (Raises 6);
     c_test "e" 5 (Value 0)] in
  passes calls = 2 /\ failures calls = 2 /\
  exists s',
    run (P := linux) calls startup = Continue s' /\
    passed s' = passes calls /\ failed s' = failures calls /\
    passed s' + failed s' = assertions calls.
Proof.
  intros calls. split; [reflexivity|]. split; [reflexivity|].
  eexists. split; [vm_compute; reflexivity|].
  apply (proj2 (proj2 (proj2 (proj2 (proj2
           (tally_counts_each_assertion_once (P := linux))))))
           calls startup).
  - unfold unsigned_wide. cbn. lia.
  - reflexivity.
  - reflexivity.
  - cbn. lia.
  - vm_compute. reflexivity.
Defined.

(** C2, as stated, fails: with the assertions on lines 230 and 231
    failing and all others passing, the libforth suite runs to its end
    with two failed assertions and [main] returns 1. *)
Lemma exit_status_is_not_the_failed_count :
  let behaviour :=
    fun line => if (line =? 230) || (line =? 231) then Value 0 else Value 1 in
  exists code s,
    main (P := linux) ["unit"; "-s"] "" "" behaviour = Stop (Returned code) s /\
    failures (libforth_tests behaviour 0) = 2 /\
    failed s = 2 /\
    code <> failed s.
Proof.
  intros behaviour. exists 1. eexists.
  split; [vm_compute; reflexivity|].
  split; [reflexivity|]. split; [reflexivity|]. discriminate.
Qed.

(** C2, amended.  For every suite that runs to its end (no [must] left
    through [exit]) from zero counters, with no more assertions than
    [unsigned] can count, the failed count that [unit_test_end] returns
    is the number of failed assertions, and the exit status is 0 when no
    assertion failed and 1 for any number of failures from one on. *)
Theorem completed_suite_exit_status {P : Platform}
  (name : string) (calls : list call) (now elapsed : string)
  (s s' : process) (code : Z) :
  unsigned_wide P ->
  passed s = 0 -> failed s = 0 ->
  assertions calls <= UINT_MAX ->
  run_suite name calls now elapsed s = Stop (Returned code) s' ->
  (forall s0, fst (unit_test_end name elapsed s0) = failed s0) /\
  failed s' = failures calls /\
  code = (if failures calls =? 0 then 0 else 1).
Proof.
  intros Hwide Hp Hf Hn Hrun. unfold unsigned_wide in Hwide.
  split; [intros s0; apply unit_test_end_value|].
  destruct (run_suite_returned _ _ _ _ _ _ _ Hrun) as (s1 & Hrun1 & -> & _ & Hf1).
  destruct (unit_test_start_frame name now s) as (Hp0 & Hf0 & _).
  pose proof (passes_nonneg calls). pose proof (failures_nonneg calls).
  pose proof (passes_plus_failures calls).
  destruct (run_tally calls (snd (unit_test_start name now s)) s1)
    as [_ Hf']; try assumption; try lia.
  rewrite Hf0, Hf, Z.add_0_l, Z.mod_small in Hf' by lia.
  rewrite Hf1, Hf'. split; reflexivity.
Qed.

Lemma completed_suite_exit_status_witness :
  let calls :=
    [c_test "a" 1 (Value 0); c_note "n"; c_test "b" 2 (Raises 6);
     c_must "c" 3 (Value 1); c_test "d" 4 (Value 0)] in
  failures calls = 3 /\
  exists s',
    run_suite (P := linux) "sample" calls "" "" startup = Stop (Returned 1) s' /\
    failed s' = failures calls /\
    1 = (if failures calls =? 0 then 0 else 1).
Proof.
  intros calls. split; [reflexivity|].
  eexists. split; [vm_compute; reflexivity|].
  apply (completed_suite_exit_status (P := linux)
           "sample" calls "" "" startup).
  - unfold unsigned_wide. cbn. lia.
  - reflexivity.
  - reflexivity.
  - cbn. lia.
  - vm_compute. reflexivity.
Defined.

(** C8.  When the arguments let the suite run and it runs to its end,
    [main] returns [!!] of the failed counter: 0 when it is zero, 1
    otherwise, never more.  The counter is then the number of failed
    assertions of the libforth suite, so the status is exactly 0 when
    none failed and exactly 1 when one or more did. *)
Theorem main_returns_double_negation {P : Platform}
  (argv : list string) (now elapsed : string) (behaviour : Z -> evaluation)
  (s0 s' : process) (code : Z) :
  unsigned_wide P ->
  arguments (hd "" argv) (tl argv) startup = Continue s0 ->
  main argv now elapsed behaviour = Stop (Returned code) s' ->
  code = (if failed s' =? 0 then 0 else 1) /\
  failed s' = failures (libforth_tests behaviour (keep_files s0)) /\
  (failures (libforth_tests behaviour (keep_files s0)) = 0 -> code = 0) /\
  (0 < failures (libforth_tests behaviour (keep_files s0)) -> code = 1) /\
  0 <= code <= 1.
Proof.
  intros Hwide Hargs Hmain. unfold main in Hmain.
  rewrite Hargs in Hmain. cbn [and_then] in Hmain.
  destruct (arguments_frame _ _ _ _ Hargs) as (Hp & Hf & _).
  cbn in Hp, Hf.
  assert (Hn : assertions (libforth_tests behaviour (keep_files s0)) <= UINT_MAX)
    by (rewrite libforth_tests_assertions; unfold unsigned_wide in Hwide; lia).
  pose proof (failures_nonneg (libforth_tests behaviour (keep_files s0))).
  destruct (run_suite_returned _ _ _ _ _ _ _ Hmain) as (s1 & Hrun1 & Hcode & _ & Hf1).
  destruct (unit_test_start_frame "libforth" now s0) as (Hp0 & Hf0 & _).
  pose proof (passes_nonneg (libforth_tests behaviour (keep_files s0))).
  pose proof (passes_plus_failures (libforth_tests behaviour (keep_files s0))).
  unfold unsigned_wide in Hwide.
  destruct (run_tally (libforth_tests behaviour (keep_files s0))
              (snd (unit_test_start "libforth" now s0)) s1)
    as [_ Hf']; try assumption; try lia.
  rewrite Hf0, Hf, Z.add_0_l, Z.mod_small in Hf' by lia.
  rewrite Hf1, Hf'. rewrite Hf' in Hcode.
  destruct (Z.eqb_spec (failures (libforth_tests behaviour (keep_files s0))) 0);
    subst code; repeat split; try reflexivity; try lia.
Qed.

Lemma main_returns_double_negation_witness :
  let behaviour :=
    fun line => if (line =? 235) || (line <? 232) && (229 <? line)
                then Raises 6 else Value 1 in
  let r := main (P := linux) ["unit"; "-s"; "-k"] "" "" behaviour in
  r = Stop (Returned 1) (final r) /\
  1 = (if failed (final r) =? 0 then 0 else 1) /\
  failed (final r) = failures (libforth_tests behaviour 1) /\
  failed (final r) = 3.
Proof.
  intros behaviour r.
  assert (Hr : r = Stop (Returned 1) (final r)) by (vm_compute; reflexivity).
  split; [exact Hr|].
  destruct (main_returns_double_negation (P := linux)
              ["unit"; "-s"; "-k"] "" "" behaviour
              (set_keep_files 1 (set_is_silent 1 startup)) (final r) 1)
    as (Hc & Hf & _).
  - unfold unsigned_wide. cbn. lia.
  - reflexivity.
  - exact Hr.
  - split; [exact Hc|]. split; [exact Hf|]. reflexivity.
Defined.

(** C6.  Two runs of a suite that differ only in [is_silent] (and in
    what had been printed before) end the same way: the same status, the
    same [passed] and [failed], the same value of every variable but the
    flag and the text on standard output; and the silent run adds nothing
    to standard output, so none of the lines written per assertion, each
    of which writes one with the flag off.  The same holds of [main] with
    and without a leading [-s]. *)
Theorem silent_mode_noninterference {P : Platform}
  (name : string) (calls : list call) (now elapsed : string) (s : process) :
  let loud := run_suite name calls now elapsed (set_is_silent 0 s) in
  let quiet := run_suite name calls now elapsed (set_is_silent 1 s) in
  exit_status loud = exit_status quiet /\
  passed (final loud) = passed (final quiet) /\
  failed (final loud) = failed (final quiet) /\
  same_outcome loud quiet /\
  stdout (final quiet) = stdout s /\
  (forall expr line v t, exists text,
      stdout (final (test expr line (Value v) (set_is_silent 0 t)))
      = (stdout t ++ [text])%list) /\
  (forall argv0 args behaviour,
      let with_s := main (argv0 :: "-s" :: args) now elapsed behaviour in
      let without := main (argv0 :: args) now elapsed behaviour in
      exit_status with_s = exit_status without /\
      passed (final with_s) = passed (final without) /\
      failed (final with_s) = failed (final without) /\
      stdout (final with_s) = []).
Proof.
  intros loud quiet.
  assert (H : same_outcome loud quiet)
    by (apply run_suite_same, set_is_silent_same).
  destruct (same_outcome_tally _ _ H) as [Hp Hf].
  refine (conj _ (conj Hp (conj Hf (conj H (conj _ (conj _ _)))))).
  - apply same_outcome_exit_status, H.
  - unfold quiet. rewrite run_suite_silent; destruct s; reflexivity.
  - intros expr line v t. apply test_loud_line.
  - intros argv0 args behaviour with_s without.
    pose proof (main_same argv0 args now elapsed behaviour) as Hm.
    destruct (same_outcome_tally _ _ Hm) as [Hmp Hmf].
    refine (conj _ (conj Hmp (conj Hmf _))).
    + apply same_outcome_exit_status, Hm.
    + apply main_silent.
Qed.

(** C7.  On a platform whose six C89 signals are distinct numbers between
    1 and 255, the name that [print_caught_signal_name] prints for the
    number in [caught_signal] is the signal's own when the number is one
    of the six, and UNKNOWN SIGNAL for every other number: zero and below,
    256 and above, and the numbers between without an entry.  The table
    is never read outside its bounds ([sig_name] is never [None]) and
    [printf] never gets a null pointer; the function always returns, and
    prints nothing in silent mode. *)
Theorem print_caught_signal_name_correct {P : Platform} (s : process) :
  signals_positive P -> signals_distinct P -> signals_below_MAX P ->
  sig_name (caught_signal s) = Some (Some (spec_signal_name (caught_signal s))) /\
  print_caught_signal_name s =
  Continue
    (if negb (truth (is_silent s)) then
       printf ("caught " ++ spec_signal_name (caught_signal s)
               ++ " (signal number " ++ decimal (caught_signal s) ++ ")" ++ NL) s
     else s) /\
  (forall n, n <= 0 \/ MAX_SIGNALS <= n ->
             sig_name n = Some (Some "UNKNOWN SIGNAL")) /\
  (forall n, 0 < n < MAX_SIGNALS ->
             array_read sig_lookup n = Some None ->
             sig_name n = Some (Some "UNKNOWN SIGNAL")) /\
  (forall n, 0 < n < MAX_SIGNALS -> array_read sig_lookup n <> None).
Proof.
  intros Hpos Hdis Hmax.
  assert (Hname := sig_name_is_spec (caught_signal s) Hpos Hdis Hmax).
  split; [exact Hname|]. split; [|split; [|split]].
  - unfold print_caught_signal_name. rewrite Hname.
    destruct (negb (truth (is_silent s))); reflexivity.
  - apply sig_name_out_of_range.
  - intros n Hn E. unfold sig_name. rewrite E.
    destruct (Z.gtb_spec n 0); destruct (Z.ltb_spec n MAX_SIGNALS);
      reflexivity.
  - intros n Hn. destruct (sig_lookup_in_bounds n) as [entry E];
      [unfold MAX_SIGNALS in *; lia|].
    rewrite E. discriminate.
Qed.

Lemma print_caught_signal_name_correct_witness :
  let s := set_caught_signal 6 startup in
  sig_name (P := linux) (caught_signal s) = Some (Some "SIGABRT") /\
  print_caught_signal_name (P := linux) s =
  Continue (printf ("caught SIGABRT (signal number 6)" ++ NL) s).
Proof.
  intros s.
  destruct (print_caught_signal_name_correct (P := linux) s)
    as (Hname & Hprint & _).
  - unfold signals_positive. cbn. repeat constructor.
  - unfold signals_distinct. cbn.
    repeat (constructor; [cbn; intuition discriminate|]). constructor.
  - unfold signals_below_MAX. cbn. repeat constructor.
  - split; [exact Hname | exact Hprint].
Defined.

(** * Further properties of the harness *)

(** ** The option loop of [main] *)

Ltac split_argument :=
  cbn [arguments];
  repeat match goal with
         | |- context [match ?x with _ => _ end] => is_var x; destruct x
         end.

Lemma beyond_options_refl (s : process) : beyond_options s s.
Proof. unfold beyond_options. repeat split; reflexivity. Qed.

Lemma beyond_options_trans (s t u : process) :
  beyond_options s t -> beyond_options t u -> beyond_options s u.
Proof.
  unfold beyond_options. intros H1 H2.
  decompose [and] H1. decompose [and] H2. repeat split; congruence.
Qed.

Lemma option_flag_kept_or_set (a b c : Z) :
  (b = a \/ b = 1) -> (c = b \/ c = 1) -> c = a \/ c = 1.
Proof. intros [->| ->] [->| ->]; auto. Qed.

Lemma arguments_beyond (argv0 : string) (args : list string) (s : process) :
  beyond_options s (final (arguments argv0 args s)).
Proof.
  revert s. induction args as [|arg args IH]; intros s.
  - apply beyond_options_refl.
  - split_argument; try apply beyond_options_refl;
      try (destruct s; unfold beyond_options; cbn; repeat split; reflexivity);
      (eapply beyond_options_trans; [|apply IH]);
      destruct s; unfold beyond_options; cbn; repeat split; reflexivity.
Qed.

(** X1.  The option loop changes nothing but the three option flags and
    [stderr]: the tally, the trap, the disposition of SIGABRT and standard
    output are as before.  It can only switch options on: each flag ends
    as it started or as 1.  When the loop lets [main] go on, [stderr] is
    untouched too. *)
Theorem arguments_only_set_options (argv0 : string) (args : list string)
  (s : process) :
  let s' := final (arguments argv0 args s) in
  beyond_options s s' /\
  (is_silent s' = is_silent s \/ is_silent s' = 1) /\
  (color_on s' = color_on s \/ color_on s' = 1) /\
  (keep_files s' = keep_files s \/ keep_files s' = 1) /\
  (exit_status (arguments argv0 args s) = None -> stderr s' = stderr s).
Proof.
  revert s. induction args as [|arg args IH]; intros s.
  - cbn. split; [apply beyond_options_refl|]. auto.
  - assert (Hgo : forall t : process,
               beyond_options s t ->
               (is_silent t = is_silent s \/ is_silent t = 1) ->
               (color_on t = color_on s \/ color_on t = 1) ->
               (keep_files t = keep_files s \/ keep_files t = 1) ->
               stderr t = stderr s ->
               let s' := final (arguments argv0 args t) in
               beyond_options s s' /\
               (is_silent s' = is_silent s \/ is_silent s' = 1) /\
               (color_on s' = color_on s \/ color_on s' = 1) /\
               (keep_files s' = keep_files s \/ keep_files s' = 1) /\
               (exit_status (arguments argv0 args t) = None ->
                stderr s' = stderr s)).
    { intros t Hb Hs Hc Hk He. destruct (IH t) as (Hb' & Hs' & Hc' & Hk' & He').
      cbn zeta. split; [eapply beyond_options_trans; eassumption|].
      split; [eapply option_flag_kept_or_set; eassumption|].
      split; [eapply option_flag_kept_or_set; eassumption|].
      split; [eapply option_flag_kept_or_set; eassumption|].
      intros Hn. rewrite (He' Hn). exact He. }
    assert (Hstop : forall t : process,
               beyond_options s t ->
               is_silent t = is_silent s -> color_on t = color_on s ->
               keep_files t = keep_files s ->
               let s' := final (Stop (Returned (-1)) t) in
               beyond_options s s' /\
               (is_silent s' = is_silent s \/ is_silent s' = 1) /\
               (color_on s' = color_on s \/ color_on s' = 1) /\
               (keep_files s' = keep_files s \/ keep_files s' = 1) /\
               (exit_status (Stop (Returned (-1)) t) = None ->
                stderr s' = stderr s)).
    { intros t Hb Hs Hc Hk. cbn. repeat split; auto; try apply Hb.
      discriminate. }
    split_argument;
      try (cbn; split; [apply beyond_options_refl|]; now auto);
      try (apply Hstop; destruct s; cbn; unfold beyond_options; cbn;
           repeat split; reflexivity);
      apply Hgo; destruct s; cbn; unfold beyond_options; cbn;
        repeat split; auto.
Qed.

Lemma arguments_stop (argv0 : string) (args : list string)
  (s s' : process) (e : ending) :
  arguments argv0 args s = Stop e s' ->
  e = Returned (-1) /\ last (stderr s') "" = usage argv0.
Proof.
  revert s. induction args as [|arg args IH]; intros s; [discriminate|].
  split_argument; try discriminate; try apply IH;
    intros [= <- <-]; destruct s; cbn; rewrite ?last_last; split; reflexivity.
Qed.

(** X2.  When the option loop rejects the command line ([-h], or a flag
    it does not know), [main] returns -1 at once: no assertion has run,
    the tally is zero, nothing is on standard output, and the last thing
    written to [stderr] is the usage text with the program's name. *)
Theorem main_rejected_arguments {P : Platform}
  (argv : list string) (now elapsed : string) (behaviour : Z -> evaluation)
  (e : ending) (s' : process) :
  arguments (hd "" argv) (tl argv) startup = Stop e s' ->
  main argv now elapsed behaviour = Stop (Returned (-1)) s' /\
  passed s' = 0 /\ failed s' = 0 /\ stdout s' = [] /\
  sigabrt_action s' = SIG_DFL /\
  last (stderr s') "" = usage (hd "" argv).
Proof.
  intros H. destruct (arguments_stop _ _ _ _ _ H) as [-> Hu].
  pose proof (arguments_beyond (hd "" argv) (tl argv) startup) as Hb.
  rewrite H in Hb. cbn [final] in Hb.
  unfold beyond_options in Hb. decompose [and] Hb.
  unfold main. rewrite H. cbn [and_then].
  repeat split; assumption.
Qed.

Lemma main_rejected_arguments_witness :
  let r := main (P := linux) ["unit"; "-s"; "-help"; "-c"] "" ""
             (fun _ => Value 1) in
  r = Stop (Returned (-1)) (final r) /\
  passed (final r) = 0 /\ stdout (final r) = [] /\
  last (stderr (final r)) "" = usage "unit".
Proof.
  intros r.
  destruct (main_rejected_arguments (P := linux)
              ["unit"; "-s"; "-help"; "-c"] "" "" (fun _ => Value 1)
              (Returned (-1)) (final r))
    as (Hm & Hp & _ & Ho & _ & Hu).
  - vm_compute. reflexivity.
  - repeat split; assumption.
Defined.

(** X3.  The option loop reads nothing after a lone dash or after an
    argument that does not start with a dash: what follows has no effect,
    not even an unknown flag or [-h]. *)
Theorem arguments_ignore_the_rest (argv0 : string) (args rest : list string)
  (arg : string) (s : process) :
  ends_options arg = true ->
  arguments argv0 (args ++ arg :: rest) s = arguments argv0 args s.
Proof.
  intros Harg. revert s. induction args as [|a args IH]; intros s.
  - cbn [app arguments].
      repeat match goal with
             | |- context [match ?x with _ => _ end] => is_var x; destruct x
             end; try reflexivity; discriminate.
  - cbn [app]. split_argument; rewrite ?IH; reflexivity.
Qed.

Lemma arguments_ignore_the_rest_witness :
  ends_options "-" = true /\
  arguments "unit" (["-c"; "-k"] ++ "-" :: ["-h"; "-x"]) startup
  = arguments "unit" ["-c"; "-k"] startup.
Proof.
  split; [reflexivity|].
  apply (arguments_ignore_the_rest "unit" ["-c"; "-k"] ["-h"; "-x"] "-" startup).
  reflexivity.
Defined.

(** ** Colour mode *)

Ltac colourless Ho :=
  unfold same_colourless_outcome, same_but_colour, uncoloured; cbn;
  rewrite ?map_app; cbn; rewrite ?Ho; repeat split; reflexivity.

Section Colour.

Context {P : Platform}.

Lemma step_colour (c : call) (s1 s2 : process) :
  same_but_colour s1 s2 -> same_colourless_outcome (step c s1) (step c s2).
Proof.
  destruct s1, s2. unfold same_but_colour, uncoloured. cbn.
  intros [= -> -> -> -> -> -> -> -> -> -> Ho ->].
  destruct c as [name|stmt e|k stmt e|expr line e|expr line e];
    try destruct e as [v|sig]; run_harness;
    repeat first [ name_the_signal | progress split_flags ]; colourless Ho.
Qed.

Lemma run_colour (calls : list call) (s1 s2 : process) :
  same_but_colour s1 s2 -> same_colourless_outcome (run calls s1) (run calls s2).
Proof.
  revert s1 s2. induction calls as [|c calls IH]; intros s1 s2 H.
  - exact H.
  - rewrite !run_cons. pose proof (step_colour c s1 s2 H) as Hc.
    destruct (step c s1), (step c s2); cbn in Hc |- *;
      try contradiction; auto.
Qed.

Lemma run_suite_colour (name : string) (calls : list call)
  (now elapsed : string) (s1 s2 : process) :
  same_but_colour s1 s2 ->
  same_colourless_outcome (run_suite name calls now elapsed s1)
                          (run_suite name calls now elapsed s2).
Proof.
  intros H. unfold run_suite.
  assert (Hstart : same_but_colour (snd (unit_test_start name now s1))
                                   (snd (unit_test_start name now s2))).
  { destruct s1, s2. revert H. unfold same_but_colour, uncoloured. cbn.
    intros [= -> -> -> -> -> -> -> -> -> -> Ho ->].
    unfold unit_test_start, signal. rewrite Z.eqb_refl. cbn.
    split_flags; rewrite ?map_app; cbn; rewrite ?Ho; reflexivity. }
  destruct (unit_test_start name now s1) as [z1 t1].
  destruct (unit_test_start name now s2) as [z2 t2].
  cbn [snd] in Hstart.
  pose proof (run_colour calls t1 t2 Hstart) as Hrun.
  destruct (run calls t1) as [u1|e1 u1], (run calls t2) as [u2|e2 u2];
    cbn [and_then same_colourless_outcome] in Hrun |- *; try contradiction;
    [|exact Hrun].
  destruct u1, u2. revert Hrun. unfold same_but_colour, uncoloured. cbn.
  intros [= -> -> -> -> -> -> -> -> -> -> Ho ->].
  unfold unit_test_end. cbn.
  split_flags; colourless Ho.
Qed.

Lemma same_colourless_fields (r1 r2 : result) :
  same_colourless_outcome r1 r2 ->
  exit_status r1 = exit_status r2 /\
  passed (final r1) = passed (final r2) /\
  failed (final r1) = failed (final r2) /\
  current_result (final r1) = current_result (final r2) /\
  stderr (final r1) = stderr (final r2) /\
  length (stdout (final r1)) = length (stdout (final r2)).
Proof.
  assert (Hs : forall s1 s2, same_but_colour s1 s2 ->
               passed s1 = passed s2 /\ failed s1 = failed s2 /\
               current_result s1 = current_result s2 /\
               stderr s1 = stderr s2 /\
               length (stdout s1) = length (stdout s2)).
  { intros s1 s2. destruct s1, s2. unfold same_but_colour, uncoloured. cbn.
    intros [= -> -> -> -> -> -> -> -> -> -> Ho ->].
    repeat split; try reflexivity.
    rewrite <- (length_map (fun _ => "") stdout0), Ho. apply length_map. }
  destruct r1 as [s1|e1 s1], r2 as [s2|e2 s2]; cbn; try contradiction.
  - intros H. split; [reflexivity|]. apply Hs, H.
  - intros [-> H]. split; [reflexivity|]. apply Hs, H.
Qed.

End Colour.

(** X4.  Colour mode has no effect but on the text printed: two runs of
    a suite that differ only in [color_on] end the same way, with the
    same tally, the same [current_result], the same [stderr] and the same
    number of [printf] calls on standard output. *)
Theorem colour_mode_noninterference {P : Platform}
  (name : string) (calls : list call) (now elapsed : string) (s : process) :
  let plain := run_suite name calls now elapsed (set_color_on 0 s) in
  let coloured := run_suite name calls now elapsed (set_color_on 1 s) in
  exit_status plain = exit_status coloured /\
  passed (final plain) = passed (final coloured) /\
  failed (final plain) = failed (final coloured) /\
  current_result (final plain) = current_result (final coloured) /\
  stderr (final plain) = stderr (final coloured) /\
  length (stdout (final plain)) = length (stdout (final coloured)).
Proof.
  intros plain coloured. apply same_colourless_fields.
  apply run_suite_colour. destruct s. reflexivity.
Qed.

(** ** The trap and the signals it does not catch *)

(** X5.  With silent mode off, a [test] whose expression raises SIGABRT
    writes two lines and no more: first the line that names the signal
    and gives its number, then the FAILED line, which carries the
    assertion's own text and its own line number. *)
Theorem caught_signal_report {P : Platform}
  (expr : string) (line : Z) (s : process) :
  signals_positive P -> signals_distinct P -> signals_below_MAX P ->
  is_silent s = 0 ->
  exists s',
    test expr line (Raises SIGABRT) s = Continue s' /\
    stdout s' = (stdout s ++ [caught_line "SIGABRT" SIGABRT;
                              failed_line s expr line])%list.
Proof.
  intros Hpos Hdis Hmax Hs.
  pose proof (sig_name_is_spec SIGABRT Hpos Hdis Hmax) as E.
  unfold spec_signal_name in E. rewrite Z.eqb_refl in E.
  destruct s. cbn in Hs. subst. run_harness. rewrite E. cbn.
  unfold caught_line, failed_line, red, reset. cbn.
  split_flags; eexists; (split; [reflexivity|]); cbn;
    rewrite <- app_assoc; reflexivity.
Qed.

Lemma caught_signal_report_witness :
  exists s',
    test (P := linux) "forth_pop(f) == 4" 235 (Raises 6) startup = Continue s' /\
    stdout s' = [caught_line "SIGABRT" 6;
                 failed_line startup "forth_pop(f) == 4" 235].
Proof.
  apply (caught_signal_report (P := linux) "forth_pop(f) == 4" 235 startup).
  - unfold signals_positive. cbn. repeat constructor.
  - unfold signals_distinct. cbn.
    repeat (constructor; [cbn; intuition discriminate|]). constructor.
  - unfold signals_below_MAX. cbn. repeat constructor.
  - reflexivity.
Defined.





(** X8.  The recovery point is single-shot.  Only SIGABRT, with the
    handler installed and the trap armed, is turned into a jump; the
    handler has then disarmed the trap and recorded SIGABRT, and a second
    SIGABRT before the trap is armed again ends the process. *)
Theorem recovery_is_single_shot {P : Platform}
  (sig : Z) (s s1 : process) :
  deliver sig s = Jumped s1 ->
  sig = SIGABRT /\
  sigabrt_action s = fn_sig_abrt_handler /\ jmpbuf_active s <> 0 /\
  jmpbuf_active s1 = 0 /\ caught_signal s1 = SIGABRT /\
  exists s2, deliver SIGABRT s1 = Terminated SIGABRT s2.
Proof.
  destruct s. unfold deliver, sig_abrt_handler. cbn.
  destruct (Z.eqb_spec sig SIGABRT) as [->|]; [|discriminate].
  destruct sigabrt_action0; try discriminate.
  unfold truth. destruct (Z.eqb_spec jmpbuf_active0 0); cbn; [discriminate|].
  intros [= <-]. cbn. rewrite Z.eqb_refl. cbn.
  repeat split; try assumption. eexists. reflexivity.
Qed.

Lemma recovery_is_single_shot_witness :
  exists s1 s2,
    deliver (P := linux) 6 (test_enter (P := linux) "f" 225 startup) = Jumped s1 /\
    jmpbuf_active s1 = 0 /\
    deliver (P := linux) 6 s1 = Terminated 6 s2.
Proof.
  eexists.
  destruct (recovery_is_single_shot (P := linux) 6
              (test_enter (P := linux) "f" 225 startup) _ eq_refl)
    as (_ & _ & _ & Hj & _ & s2 & H2).
  exists s2. repeat split; assumption.
Defined.

(** X9.  [test] and [must] overwrite the trap: what they do does not
    depend on the values of [jmpbuf_active], of the disposition of
    SIGABRT, of [current_line] and of [current_expr] they are entered
    with.  Entering with the trap still armed, or with the handler
    already installed, changes nothing. *)
Theorem test_overwrites_trap {P : Platform}
  (expr : string) (line : Z) (e : evaluation) (s : process)
  (j l : Z) (a : sighandler) (x : string) :
  let s0 :=
    set_jmpbuf_active j
      (set_sigabrt_action a (set_current_line l (set_current_expr x s))) in
  test expr line e s0 = test expr line e s /\
  must expr line e s0 = must expr line e s.
Proof.
  destruct s. cbn zeta. split; destruct e as [v|sig]; run_harness;
    repeat first [ name_the_signal | progress split_flags ]; reflexivity.
Qed.

(** ** Runs and what they print *)

Section Runs.

Context {P : Platform}.


(** No call touches the option flags or [stderr]. *)
Lemma step_flags (c : call) (s : process) :
  is_silent (final (step c s)) = is_silent s /\
  color_on (final (step c s)) = color_on s /\
  keep_files (final (step c s)) = keep_files s /\
  stderr (final (step c s)) = stderr s.
Proof.
  destruct s.
  destruct c as [name|stmt e|k stmt e|expr line e|expr line e];
    try destruct e as [v|sig]; run_harness;
    repeat first [ name_the_signal | progress split_flags ];
    repeat split; reflexivity.
Qed.

Lemma run_flags (calls : list call) (s : process) :
  is_silent (final (run calls s)) = is_silent s /\
  color_on (final (run calls s)) = color_on s /\
  keep_files (final (run calls s)) = keep_files s /\
  stderr (final (run calls s)) = stderr s.
Proof.
  revert s. induction calls as [|c calls IH]; intros s.
  - repeat split; reflexivity.
  - rewrite run_cons. pose proof (step_flags c s) as Hc.
    destruct (step c s) as [s1|e s1]; cbn [and_then final] in Hc |- *;
      [|exact Hc].
    destruct (IH s1) as (H1 & H2 & H3 & H4). destruct Hc as (G1 & G2 & G3 & G4).
    repeat split; congruence.
Qed.

Lemma step_line_count (c : call) (s s' : process) :
  is_silent s = 0 -> step c s = Continue s' ->
  length (stdout s') = (length (stdout s) + printed c)%nat.
Proof.
  destruct s. cbn [is_silent stdout]. intros ->.
  destruct c as [name|stmt e|k stmt e|expr line e|expr line e];
    try destruct e as [v|sig]; run_harness;
    repeat first [ name_the_signal | progress split_flags ];
    try discriminate;
    intros [= <-]; cbn; rewrite ?length_app; cbn;
    repeat match goal with
           | H : truth _ = _ |- _ => rewrite H
           end; lia.
Qed.

Lemma step_benign (c : call) (s : process) :
  benign c -> exists s', step c s = Continue s'.
Proof.
  destruct c as [name|stmt e|k stmt e|expr line e|expr line e]; cbn [benign step].
  - eauto.
  - intros [v ->]. unfold state. eauto.
  - intros [v ->]. unfold state. destruct (negb (truth k)); eauto.
  - intros [v ->]. destruct (test_value_effect expr line v s) as (s' & H & _).
    eauto.
  - destruct e as [v|sig]; cbn [spec_outcome]; [|discriminate].
    intros Hv.
    destruct (test_value_effect expr line v (print_must expr s))
      as (s' & H & Hr & _).
    exists s'. rewrite (must_after_test _ _ _ _ _ H), Hr.
    destruct (v =? 0); [discriminate|reflexivity].
Qed.

Lemma run_benign (calls : list call) (s : process) :
  Forall benign calls -> exists s', run calls s = Continue s'.
Proof.
  intros H. revert s. induction H as [|c calls Hc _ IH]; intros s.
  - exists s. reflexivity.
  - destruct (step_benign c s Hc) as [s1 H1]. destruct (IH s1) as [s' H'].
    exists s'. rewrite run_cons, H1. exact H'.
Qed.

(** How a call can end a run. *)
Lemma step_stop (c : call) (s s' : process) (e : ending) :
  step c s = Stop e s' ->
  e = Exited (-1) \/ e = Undefined \/ exists sig, e = Killed sig /\ raises sig c.
Proof.
  destruct s.
  destruct c as [name|stmt e0|k stmt e0|expr line e0|expr line e0];
    try destruct e0 as [v|sig]; run_harness;
    repeat first [ name_the_signal | progress split_flags ];
    try discriminate; intros [= <- <-]; eauto.
Qed.

Lemma run_stop (calls : list call) (s s' : process) (e : ending) :
  run calls s = Stop e s' ->
  e = Exited (-1) \/ e = Undefined \/
  exists sig, e = Killed sig /\ Exists (raises sig) calls.
Proof.
  revert s. induction calls as [|c calls IH]; intros s; [discriminate|].
  rewrite run_cons. destruct (step c s) as [s1|e1 s1] eqn:Hc; cbn [and_then].
  - intros H. destruct (IH _ H) as [->|[->|(sig & -> & Hx)]]; auto.
    right. right. exists sig. split; [reflexivity|]. apply Exists_cons_tl, Hx.
  - intros [= -> ->].
    destruct (step_stop _ _ _ _ Hc) as [->|[->|(sig & -> & Hx)]]; auto.
    right. right. exists sig. split; [reflexivity|]. apply Exists_cons_hd, Hx.
Qed.

Lemma unit_test_start_flags (name now : string) (s : process) :
  is_silent (snd (unit_test_start name now s)) = is_silent s /\
  color_on (snd (unit_test_start name now s)) = color_on s.
Proof.
  destruct s. unfold unit_test_start, signal. rewrite Z.eqb_refl. cbn.
  split_flags; split; reflexivity.
Qed.

End Runs.

(** X10.  A sequence of calls none of which can end the run (every
    expression and statement yields a value, and every [must] a non-zero
    one) runs to its end from any process. *)
Theorem benign_calls_complete {P : Platform} (calls : list call) (s : process) :
  Forall benign calls -> exists s', run calls s = Continue s'.
Proof.
  intros H. revert s. induction H as [|c calls Hc _ IH]; intros s.
  - exists s. reflexivity.
  - destruct (step_benign c s Hc) as [s1 H1]. destruct (IH s1) as [s' H'].
    exists s'. rewrite run_cons, H1. exact H'.
Qed.

Lemma benign_calls_complete_witness :
  let calls := [c_state "f = forth_init()" (Value 0); c_must "f" 225 (Value 8);
                c_test "0 == forth_stack_position(f)" 230 (Value 0)] in
  Forall benign calls /\ exists s', run (P := linux) calls startup = Continue s'.
Proof.
  intros calls.
  assert (H : Forall benign calls).
  { repeat constructor; cbn; eauto. }
  split; [exact H|].
  apply (benign_calls_complete (P := linux) calls startup H).
Defined.

(** X11.  With silent mode off, a run that reaches its end has made, for
    each of its calls, the [printf] calls of that call and no other: one
    for a note, a statement or a [test], one more for the line that names
    a caught signal, one more for the line that announces a [must]. *)
Theorem loud_run_line_count {P : Platform} (calls : list call) (s s' : process) :
  is_silent s = 0 ->
  run calls s = Continue s' ->
  length (stdout s') = (length (stdout s) + list_sum (map printed calls))%nat.
Proof.
  revert s. induction calls as [|c calls IH]; intros s Hs.
  - intros [= <-]. cbn. lia.
  - rewrite run_cons. destruct (step c s) as [s1|] eqn:Hc; [|discriminate].
    cbn [and_then]. intros Hrun.
    pose proof (step_flags c s) as Hf. rewrite Hc in Hf. cbn [final] in Hf.
    destruct Hf as (Hq & _).
    rewrite (IH s1) by (congruence || assumption).
    rewrite (step_line_count _ _ _ Hs Hc).
    unfold list_sum. cbn [map fold_right]. lia.
Qed.

Lemma loud_run_line_count_witness :
  let calls := [c_note "libforth.c"; c_must "f" 225 (Value 1);
                c_test "forth_pop(f) == 4" 235 (Raises 6);
                c_state "forth_free(f)" (Value 0)] in
  exists s', run (P := linux) calls startup = Continue s' /\
             length (stdout s') = 6%nat.
Proof.
  intros calls. eexists. split; [vm_compute; reflexivity|].
  apply (loud_run_line_count (P := linux) calls startup); reflexivity.
Defined.



(** X13.  With silent mode off, the last line a completed suite prints is
    the summary, and it reports the tally: after [passed] the number of
    assertions that passed, after the slash the number of assertions
    run (from zero counters, and no more assertions than [unsigned] can
    count). *)
Theorem summary_reports_the_tally {P : Platform}
  (name : string) (calls : list call) (now elapsed : string)
  (s s' : process) (code : Z) :
  unsigned_wide P ->
  passed s = 0 -> failed s = 0 ->
  assertions calls <= UINT_MAX ->
  is_silent s = 0 ->
  run_suite name calls now elapsed s = Stop (Returned code) s' ->
  last (stdout s') "" =
  summary_line name (passes calls) (assertions calls) elapsed.
Proof.
  intros Hwide Hp Hf Hn Hs. unfold unsigned_wide in Hwide. unfold run_suite.
  destruct (unit_test_start_frame name now s) as (Hp0 & Hf0 & _).
  destruct (unit_test_start_flags name now s) as (Hs0 & _).
  destruct (unit_test_start name now s) as [z t]. cbn [snd] in Hp0, Hf0, Hs0.
  destruct (run calls t) as [u|e u] eqn:Hrun; cbn [and_then].
  - pose proof (passes_nonneg calls). pose proof (failures_nonneg calls).
    pose proof (passes_plus_failures calls) as Hsum.
    destruct (run_tally calls t u) as [Hpu Hfu]; try assumption; try lia.
    rewrite Hp0, Hp, Z.add_0_l, Z.mod_small in Hpu by lia.
    rewrite Hf0, Hf, Z.add_0_l, Z.mod_small in Hfu by lia.
    pose proof (run_flags calls t) as Hfl. rewrite Hrun in Hfl.
    cbn [final] in Hfl. destruct Hfl as (Hsu & _).
    assert (Hadd : uint_add (passed u) (failed u) = assertions calls).
    { unfold uint_add. rewrite Hpu, Hfu, Hsum. apply Z.mod_small. lia. }
    destruct u. cbn in Hpu, Hfu, Hsu, Hadd. unfold unit_test_end. cbn.
    replace is_silent0 with 0 by congruence. cbn.
    intros [= _ <-]. cbn. rewrite last_last.
    unfold summary_line. rewrite Hadd, Hpu. reflexivity.
  - intros [= -> ->]. exfalso. eapply run_never_returns; eassumption.
Qed.

Lemma summary_reports_the_tally_witness :
  let calls := [c_test "a" 1 (Value 1); c_test "b" 2 (Value 0);
                c_must "c" 3 (Value 5)] in
  let r := run_suite (P := linux) "libforth" calls "" "0.000100" startup in
  r = Stop (Returned 1) (final r) /\
  last (stdout (final r)) "" = summary_line "libforth" 2 3 "0.000100".
Proof.
  intros calls r.
  assert (Hr : r = Stop (Returned 1) (final r)) by (vm_compute; reflexivity).
  split; [exact Hr|].
  apply (summary_reports_the_tally (P := linux) "libforth" calls ""
           "0.000100" startup (final r) 1).
  - unfold unsigned_wide. cbn. lia.
  - reflexivity.
  - reflexivity.
  - cbn. lia.
  - reflexivity.
  - exact Hr.
Defined.

(** ** [main] as a whole *)

Lemma value_of_pass (e : evaluation) :
  spec_outcome e = true -> exists v, e = Value v.
Proof. destruct e; [eauto|discriminate]. Qed.

Lemma no_failures (calls : list call) :
  Forall (fun c => fails_assertion c = false) calls -> failures calls = 0.
Proof.
  induction 1 as [|c calls Hc _ IH]; [reflexivity|].
  rewrite failures_cons, Hc, IH. reflexivity.
Qed.

(** X14.  When the command line is accepted and every expression and
    statement of the libforth suite yields a non-zero value, [main] runs
    all 65 assertions and returns 0, with [passed] at 65 and [failed] at
    zero, whichever options were given. *)
Theorem main_all_pass {P : Platform}
  (argv : list string) (now elapsed : string) (behaviour : Z -> evaluation)
  (s0 : process) :
  unsigned_wide P ->
  arguments (hd "" argv) (tl argv) startup = Continue s0 ->
  (forall n, spec_outcome (behaviour n) = true) ->
  exists s', main argv now elapsed behaviour = Stop (Returned 0) s' /\
             passed s' = 65 /\ failed s' = 0.
Proof.
  intros Hwide Hargs Hall. unfold unsigned_wide in Hwide.
  set (calls := libforth_tests behaviour (keep_files s0)).
  assert (Hbenign : Forall benign calls).
  { unfold calls, libforth_tests.
    repeat (constructor; [cbn [benign]; auto using value_of_pass|]).
    constructor. }
  assert (Hnofail : failures calls = 0).
  { apply no_failures. unfold calls, libforth_tests.
    repeat (constructor; [cbn [fails_assertion]; rewrite ?Hall; reflexivity|]).
    constructor. }
  assert (Hn : assertions calls = 65) by apply libforth_tests_assertions.
  pose proof (passes_plus_failures calls) as Hsum.
  pose proof (arguments_beyond (hd "" argv) (tl argv) startup) as Hf.
  rewrite Hargs in Hf. cbn [final] in Hf. destruct Hf as (Hp0 & Hf0 & _).
  cbn in Hp0, Hf0.
  destruct (unit_test_start_frame "libforth" now s0) as (Hp1 & Hf1 & _).
  unfold main. rewrite Hargs. cbn [and_then]. fold calls. unfold run_suite.
  destruct (unit_test_start "libforth" now s0) as [z t]. cbn [snd] in Hp1, Hf1.
  destruct (run_benign calls t Hbenign) as [u Hrun].
  rewrite Hrun. cbn [and_then].
  destruct (run_tally calls t u) as [Hpu Hfu]; try assumption; try lia.
  rewrite Hp1, Hp0, Z.add_0_l, Z.mod_small in Hpu by lia.
  rewrite Hf1, Hf0, Z.add_0_l, Z.mod_small in Hfu by lia.
  destruct (unit_test_end_value "libforth" elapsed u) as (Hv & Hpe & Hfe).
  destruct (unit_test_end "libforth" elapsed u) as [v w].
  cbn [fst snd] in Hv, Hpe, Hfe.
  exists w. replace v with 0 by lia. cbn.
  split; [reflexivity|split; lia].
Qed.

Lemma main_all_pass_witness :
  exists s',
    main (P := linux) ["unit"; "-s"; "-k"] "" "" (fun _ => Value 1)
    = Stop (Returned 0) s' /\ passed s' = 65 /\ failed s' = 0.
Proof.
  apply (main_all_pass (P := linux) ["unit"; "-s"; "-k"] "" ""
           (fun _ => Value 1) (set_keep_files 1 (set_is_silent 1 startup))).
  - unfold unsigned_wide. cbn. lia.
  - reflexivity.
  - intros n. reflexivity.
Defined.

(** X15.  [main] ends in one of these ways and in no other: it returns
    0 or 1 after the suite, or -1 from the option loop; it leaves by
    [exit(-1)]; or it is killed by a signal that one of the expressions
    or statements of the suite raised.  It never falls into undefined
    behaviour. *)
Theorem main_endings {P : Platform}
  (argv : list string) (now elapsed : string) (behaviour : Z -> evaluation) :
  match main argv now elapsed behaviour with
  | Continue _ => False
  | Stop (Returned code) _ => code = 0 \/ code = 1 \/ code = -1
  | Stop (Exited code) _ => code = -1
  | Stop (Killed sig) _ =>
      exists k, Exists (raises sig) (libforth_tests behaviour k)
  | Stop Undefined _ => False
  end.
Proof.
  pose proof (main_defined argv now elapsed behaviour) as Hdef.
  unfold main in *.
  destruct (arguments (hd "" argv) (tl argv) startup) as [s0|e s0] eqn:Hargs;
    cbn [and_then] in *.
  - unfold run_suite in *.
    destruct (unit_test_start "libforth" now s0) as [z t].
    destruct (run (libforth_tests behaviour (keep_files s0)) t)
      as [u|e u] eqn:Hrun; cbn [and_then] in *.
    + destruct (unit_test_end "libforth" elapsed u) as [v w].
      destruct (v =? 0); auto.
    + destruct (run_stop _ _ _ _ Hrun) as [->|[->|(sig & -> & Hx)]].
      * reflexivity.
      * eapply Hdef. reflexivity.
      * eauto.
  - destruct (arguments_stop _ _ _ _ _ Hargs) as [-> _]. auto.
Qed.

(** X16.  On a command line made of [-s], [-c] and [-k] only, in any
    order and any number of times, the option loop lets [main] go on with
    each of [is_silent], [color_on] and [keep_files] at 1 when its option
    occurs somewhere and unchanged otherwise; only the character after
    the dash counts. *)
Theorem arguments_switch_options (argv0 : string) (args : list string)
  (s : process) :
  only_options args = true ->
  arguments argv0 args s =
  Continue
    (set_keep_files (switched "k" args (keep_files s))
       (set_color_on (switched "c" args (color_on s))
          (set_is_silent (switched "s" args (is_silent s)) s))).
Proof.
  unfold only_options, switched.
  revert s. induction args as [|arg args IH]; intros s.
  - intros _. destruct s. reflexivity.
  - cbn [forallb existsb]. intros H. apply andb_prop in H. destruct H as [Ha Hr].
    revert Ha. unfold is_option at 1 2 3.
    cbn [arguments].
    destruct arg as [|a arg]; [discriminate|].
    destruct a as [[] [] [] [] [] [] [] []]; try discriminate.
    destruct arg as [|b arg]; [discriminate|].
    destruct b as [[] [] [] [] [] [] [] []]; try discriminate; intros _;
      rewrite (IH _ Hr); destruct s; cbn;
      destruct (existsb (is_option "s") args),
               (existsb (is_option "c") args),
               (existsb (is_option "k") args); reflexivity.
Qed.

Lemma arguments_switch_options_witness :
  only_options ["-k"; "-silent"; "-k"] = true /\
  arguments "unit" ["-k"; "-silent"; "-k"] startup
  = Continue (set_keep_files 1 (set_color_on 0 (set_is_silent 1 startup))).
Proof.
  split; [reflexivity|].
  apply (arguments_switch_options "unit" ["-k"; "-silent"; "-k"] startup).
  reflexivity.
Defined.

(** X17.  [current_result] stays a truth value: if it is 0 or 1 when a
    run starts, as it is when [main] starts, it is 0 or 1 after every
    call of a run that goes on. *)
Theorem current_result_is_boolean {P : Platform}
  (calls : list call) (s s' : process) :
  current_result s = 0 \/ current_result s = 1 ->
  run calls s = Continue s' ->
  current_result s' = 0 \/ current_result s' = 1.
Proof.
  revert s. induction calls as [|c calls IH]; intros s Hs.
  - intros [= <-]. exact Hs.
  - rewrite run_cons. destruct (step c s) as [s1|] eqn:Hc; [|discriminate].
    cbn [and_then]. apply IH. revert Hc. clear IH.
    destruct s. cbn [current_result] in Hs.
    destruct c as [name|stmt e|k stmt e|expr line e|expr line e];
      try destruct e as [v|sig]; run_harness;
      repeat first [ name_the_signal | progress split_flags ];
      try discriminate; intros [= <-]; cbn; auto.
Qed.

Lemma current_result_is_boolean_witness :
  exists s',
    run (P := linux) [c_test "a" 1 (Value 42); c_test "b" 2 (Raises 6)] startup
    = Continue s' /\
    (current_result s' = 0 \/ current_result s' = 1).
Proof.
  eexists. split; [vm_compute; reflexivity|].
  apply (current_result_is_boolean (P := linux)
           [c_test "a" 1 (Value 42); c_test "b" 2 (Raises 6)] startup).
  - left. reflexivity.
  - vm_compute. reflexivity.
Defined.

Lemma arguments_only_set_options_witness :
  let s' := final (arguments "unit" ["-c"; "-s"; "core"; "-h"] startup) in
  exit_status (arguments "unit" ["-c"; "-s"; "core"; "-h"] startup) = None /\
  beyond_options startup s' /\ is_silent s' = 1 /\ color_on s' = 1 /\
  keep_files s' = 0 /\ stderr s' = stderr startup.
Proof.
  intros s'.
  destruct (arguments_only_set_options "unit" ["-c"; "-s"; "core"; "-h"] startup)
    as (Hb & _ & _ & _ & He).
  split; [reflexivity|]. split; [exact Hb|].
  split; [reflexivity|]. split; [reflexivity|]. split; [reflexivity|].
  apply He. reflexivity.
Defined.
